(** * Session lifecycle and message routing of the kitchen-sink MCP server

    A shallow embedding of the Node drafts of the kitchen-sink server
    ([kitchen_sink_server_node/src/server.ts] and the later drafts kept next
    to it) and the properties of its HTTP surface, stream registry and tool
    dispatch.

    Conventions of the embedding:
    - the process-wide [sessions] map is a [gmap string SessionRecord];
    - one request is handled against a [State] holding the registry, the
      response object of that request and the trace of calls made into the
      runtime and the MCP SDK;
    - JavaScript exceptions are the [Thrown] completion of the monad [M];
    - what the SDK does (the identifier of a new transport, whether
      [server.connect] resolves) is an input of the handlers, never
      computed by them; the one model of the SDK's identifiers,
      [new_sessionId], follows the specification. *)

From Stdlib Require Import String Ascii List Bool ZArith Lia.
From stdpp Require Import base option gmap strings list pretty.
Import ListNotations.

Local Open Scope string_scope.

(** ** JavaScript values and errors *)

(** JSON values as they arrive in [request.params.arguments]. *)
#[local] Unset Elimination Schemes.
Inductive Json :=
| JNull
| JBool (b : bool)
| JNum (z : Z)
| JStr (s : string)
| JArr (items : list Json)
| JObj (fields : list (string * Json)).
#[local] Set Elimination Schemes.

(** One issue of a [ZodError]: where, what was expected, what was found. *)
Record ZodIssue := {
  issue_code : string;
  issue_expected : string;
  issue_received : string;
  issue_path : list string;
  issue_message : string }.

(** The error objects the drafts throw or receive. *)
Inductive Exn :=
| Error (message : string)
| TypeError (message : string)
| RangeError (message : string)
| ZodError (issues : list ZodIssue).

(** A statement either completes normally or throws. *)
Inductive Completion (A : Type) :=
| Normal (a : A)
| Thrown (e : Exn).
Arguments Normal {A} a.
Arguments Thrown {A} e.

(** ** node:http response objects *)

Record ServerResponse := {
  headers : list (string * string);
  headersSent : bool;
  statusCode : nat;
  body : string;
  writableEnded : bool }.

(** A response as [createServer] hands it to the request listener. *)
Definition fresh_response : ServerResponse :=
  {| headers := []; headersSent := false; statusCode := 200;
     body := ""; writableEnded := false |}.

Definition put_header (name value : string) (hs : list (string * string))
  : list (string * string) :=
  List.filter (fun h => negb (String.eqb (fst h) name)) hs ++ [(name, value)].

(** ** The parsed request *)

(** [new URL(req.url, base)]: the listener reads [pathname] and
    [searchParams] only. *)
Record URL := {
  pathname : string;
  searchParams : list (string * string) }.

Record IncomingMessage := {
  method : string;
  url : URL }.

(** [url.searchParams.get(name)]: the first value of [name], or null. *)
Fixpoint searchParams_get (name : string) (ps : list (string * string))
  : option string :=
  match ps with
  | [] => None
  | (k, v) :: rest =>
      if String.eqb k name then Some v else searchParams_get name rest
  end.

(** [url.searchParams.has(name)]. *)
Definition searchParams_has (name : string) (ps : list (string * string))
  : bool :=
  match searchParams_get name ps with Some _ => true | None => false end.

(** [s.replace(/\/$/, "")]: the pattern can only match a slash that is the
    last character, and a non-global replace rewrites one match. *)
Fixpoint replace_trailing_slash (s : string) : string :=
  match s with
  | EmptyString => EmptyString
  | String c EmptyString =>
      if Ascii.eqb c "/"%char then EmptyString else s
  | String c rest => String c (replace_trailing_slash rest)
  end.

(** ** Sessions and the stream registry *)

Record Server := {
  server_name : string;
  server_version : string }.

(** What the drafts know of a transport: the endpoint they passed to its
    constructor and the [sessionId] the SDK gave it.  Two transports that
    agree on both are not told apart here. *)
Record SSEServerTransport := {
  endpoint : string;
  sessionId : string }.

Record SessionRecord := {
  server : Server;
  transport : SSEServerTransport }.

(** The identifier of the transport a session record holds. *)
Definition session_id (s : SessionRecord) : string :=
  sessionId (transport s).

(** Calls that leave the module: console output and the MCP SDK. *)
Inductive Effect :=
| console_log (msg : string)
| console_error (msg : string) (error : Exn)
| new_SSEServerTransport (endpoint : string) (sid : string)
| set_onclose (sid : string)
| set_onerror (sid : string)
| server_connect (sid : string)
| server_close (sid : string)
| transport_handlePostMessage (sid : string).

(** How an awaited SDK call ends: [head] is the status line the SDK wrote
    on the response during the call, if it wrote one. *)
Inductive SdkOutcome :=
| Resolves (head : option nat)
| Rejects (head : option nat) (error : Exn).

(** What the SDK contributes while one request is handled. *)
Record Sdk := {
  transport_sessionId : string;
  connect_outcome : SdkOutcome;
  handlePostMessage_outcome : SdkOutcome }.

Record State := {
  sessions : gmap string SessionRecord;
  res : ServerResponse;
  trace : list Effect }.

(** ** The monad of request handlers *)

Definition M (A : Type) : Type := State -> Completion A * State.

Definition ret {A} (a : A) : M A := fun st => (Normal a, st).

Definition bind {A B} (m : M A) (k : A -> M B) : M B :=
  fun st =>
    match m st with
    | (Normal a, st') => k a st'
    | (Thrown e, st') => (Thrown e, st')
    end.

Definition throw {A} (e : Exn) : M A := fun st => (Thrown e, st).

(** [try { body } catch (error) { handler }]. *)
Definition try_catch {A} (body : M A) (handler : Exn -> M A) : M A :=
  fun st =>
    match body st with
    | (Normal a, st') => (Normal a, st')
    | (Thrown e, st') => handler e st'
    end.

Declare Scope js_scope.
Delimit Scope js_scope with js.
Notation "x <- c ;; k" := (bind c (fun x => k))
  (at level 100, c at next level, right associativity) : js_scope.
Notation "c ;;; k" := (bind c (fun _ => k))
  (at level 100, right associativity) : js_scope.
Local Open Scope js_scope.

Definition when (b : bool) (m : M unit) : M unit :=
  if b then m else ret tt.

Definition emit (e : Effect) : M unit :=
  fun st =>
    (Normal tt,
     {| sessions := sessions st; res := res st; trace := trace st ++ [e] |}).

Definition get_res : M ServerResponse := fun st => (Normal (res st), st).

Definition set_res (r : ServerResponse) : M unit :=
  fun st =>
    (Normal tt, {| sessions := sessions st; res := r; trace := trace st |}).

(** [res.setHeader(name, value)] *)
Definition res_setHeader (name value : string) : M unit :=
  r <- get_res ;;
  if headersSent r then throw (Error "ERR_HTTP_HEADERS_SENT")
  else set_res {| headers := put_header name value (headers r);
                  headersSent := false; statusCode := statusCode r;
                  body := body r; writableEnded := writableEnded r |}.

(** [res.writeHead(status, extra)] *)
Definition res_writeHead (status : nat) (extra : list (string * string))
  : M unit :=
  r <- get_res ;;
  if headersSent r then throw (Error "ERR_HTTP_HEADERS_SENT")
  else set_res {| headers :=
                    fold_left (fun hs h => put_header (fst h) (snd h) hs)
                              extra (headers r);
                  headersSent := true; statusCode := status;
                  body := body r; writableEnded := writableEnded r |}.

(** [res.end(data)] *)
Definition res_end (data : string) : M unit :=
  r <- get_res ;;
  set_res {| headers := headers r; headersSent := true;
             statusCode := statusCode r;
             body := if writableEnded r then body r else body r ++ data;
             writableEnded := true |}.

(** [sessions.set(key, value)] *)
Definition sessions_set (key : string) (v : SessionRecord) : M unit :=
  fun st =>
    (Normal tt,
     {| sessions := <[key := v]> (sessions st); res := res st;
        trace := trace st |}).

(** [sessions.get(key)] *)
Definition sessions_get (key : string) : M (option SessionRecord) :=
  fun st => (Normal (sessions st !! key), st).

(** [sessions.has(key)] *)
Definition sessions_has (key : string) : M bool :=
  fun st => (Normal (bool_decide (is_Some (sessions st !! key))), st).

(** [sessions.delete(key)]: answers whether an entry was removed. *)
Definition sessions_delete (key : string) : M bool :=
  fun st =>
    (Normal (bool_decide (is_Some (sessions st !! key))),
     {| sessions := delete key (sessions st); res := res st;
        trace := trace st |}).

(** An awaited SDK call: the SDK may have written the status line, and the
    promise resolves or rejects. *)
Definition await_sdk (call : Effect) (o : SdkOutcome) : M unit :=
  emit call ;;;
  r <- get_res ;;
  let wrote (head : option nat) :=
    match head with
    | Some status =>
        set_res {| headers := headers r; headersSent := true;
                   statusCode := status; body := body r;
                   writableEnded := writableEnded r |}
    | None => ret tt
    end in
  match o with
  | Resolves head => wrote head
  | Rejects head error => wrote head ;;; throw error
  end.

(** JavaScript truthiness of [string | null]. *)
Definition truthy (s : option string) : bool :=
  match s with
  | None => false
  | Some v => negb (String.eqb v "")
  end.

(** ** Tool calls: requests, results, zod *)

Definition dquote : string := String (ascii_of_nat 34) EmptyString.

(** [request.params] of a [CallToolRequest]; [arguments] is optional. *)
Record CallToolRequest := {
  name : string;
  arguments : option (list (string * Json)) }.

Record TextContent := {
  type : string;
  text : string }.

Record CallToolResult := {
  content : list TextContent;
  structuredContent : option (list (string * Json));
  _meta : option (list (string * Json)) }.

(** The declared shape of a tool's arguments ([inputSchema]). *)
Record InputSchema := {
  properties : list (string * string);
  required : list string;
  additionalProperties : bool }.

Record Tool := {
  tool_name : string;
  tool_title : string;
  tool_description : string;
  inputSchema : InputSchema;
  tool_meta : option (list (string * Json));
  annotations : list (string * bool) }.

(** [WidgetPayload]: what a tool hands to the widget. *)
Record WidgetPayload := {
  payload_message : string;
  payload_accentColor : option string;
  payload_details : option string;
  fromTool : option string }.

(** The own properties of a payload: undefined ones are not there. *)
Definition payload_fields (p : WidgetPayload) : list (string * Json) :=
  let opt key v :=
    match v with Some s => [(key, JStr s)] | None => [] end in
  [("message", JStr (payload_message p))]
  ++ opt "accentColor" (payload_accentColor p)
  ++ opt "details" (payload_details p)
  ++ opt "fromTool" (fromTool p).

(** How the string conversion of a parsed JSON value ends: with the
    string, with the [TypeError] of an object that has no primitive value
    (its own [toString] is not a function; an array that holds such an
    object), or with the [RangeError] of an array nested deeper than the
    call stack allows. *)
Inductive ToStringOutcome :=
| Converted (s : string)
| NoPrimitiveValue
| StackExhausted.

(** What the handlers read from the JavaScript runtime.  [ToString] is
    the string conversion of a value that is not a string. *)
Record Runtime := {
  toISOString_now : string;
  toUpperCase : string -> string;
  ToString : Json -> ToStringOutcome }.

(** Property read [obj.key] on a parsed object: its value, or undefined. *)
Fixpoint get_property (key : string) (obj : list (string * Json))
  : option Json :=
  match obj with
  | [] => None
  | (k, v) :: rest =>
      if String.eqb k key then Some v else get_property key rest
  end.

(** A substitution [${v}] in a template literal. *)
Definition template (rt : Runtime) (v : option Json) : Completion string :=
  match v with
  | None => Normal "undefined"
  | Some (JStr s) => Normal s
  | Some j =>
      match ToString rt j with
      | Converted s => Normal s
      | NoPrimitiveValue =>
          Thrown (TypeError "Cannot convert object to primitive value")
      | StackExhausted =>
          Thrown (RangeError "Maximum call stack size exceeded")
      end
  end.

(** The name zod gives to the type of a value it rejects. *)
Definition zod_parsed_type (v : option Json) : string :=
  match v with
  | None => "undefined"
  | Some JNull => "null"
  | Some (JBool _) => "boolean"
  | Some (JNum _) => "number"
  | Some (JStr _) => "string"
  | Some (JArr _) => "array"
  | Some (JObj _) => "object"
  end.

Definition invalid_type (path : list string) (v : option Json) : ZodIssue :=
  {| issue_code := "invalid_type";
     issue_expected := "string";
     issue_received := zod_parsed_type v;
     issue_path := path;
     issue_message :=
       match v with
       | None => "Required"
       | Some _ => "Expected string, received " ++ zod_parsed_type v
       end |}.

(** [z.string()] applied to the value at [path]. *)
Definition z_string (path : list string) (v : option Json)
  : string + list ZodIssue :=
  match v with
  | Some (JStr s) => inl s
  | _ => inr [invalid_type path v]
  end.

(** [z.string().optional()] applied to the value at [path]. *)
Definition z_string_optional (path : list string) (v : option Json)
  : option string + list ZodIssue :=
  match v with
  | None => inl None
  | Some _ =>
      match z_string path v with
      | inl s => inl (Some s)
      | inr issues => inr issues
      end
  end.

Definition issues_of {A} (r : A + list ZodIssue) : list ZodIssue :=
  match r with inl _ => [] | inr issues => issues end.

(** Is [v] of the JSON Schema type named [ty]? *)
Definition has_type (ty : string) (v : Json) : bool :=
  match v with
  | JNull => String.eqb ty "null"
  | JBool _ => String.eqb ty "boolean"
  | JNum _ => String.eqb ty "number"
  | JStr _ => String.eqb ty "string"
  | JArr _ => String.eqb ty "array"
  | JObj _ => String.eqb ty "object"
  end.

(** Does [args] have the declared shape: every required property present,
    every declared property of its declared type, nothing undeclared when
    [additionalProperties] is false. *)

Definition declared (schema : InputSchema) (key : string) : bool :=
  existsb (fun p => String.eqb (fst p) key) (properties schema).

Definition satisfies (schema : InputSchema) (args : list (string * Json))
  : bool :=
  forallb (fun key =>
             match get_property key args with
             | Some _ => true
             | None => false
             end) (required schema)
  && forallb (fun p =>
                match get_property (fst p) args with
                | Some v => has_type (snd p) v
                | None => true
                end) (properties schema)
  && (additionalProperties schema
      || forallb (fun kv => declared schema (fst kv)) args).

(** ** The protocol engine around a tool handler *)

Inductive OperationResult :=
| SuccessResult (result : CallToolResult)
| FailureResult (error : Exn).

(** One engine per session: whether it still accepts dispatches, and what
    it has written on the stream of its session. *)
Record Engine := {
  accepting : bool;
  written : list OperationResult }.

(** Modelled from the spec: the request wrapper of the MCP SDK's [Server],
    which calls the handler installed with [setRequestHandler] and is not
    part of this repository.  Section 4.3 and section 7: one result per
    dispatch is written to the owning stream, an error raised by a handler
    becomes a failure result delivered the same way a success result would
    be, and a write to a closed stream is dropped. *)
Definition Dispatch (handler : CallToolRequest -> Completion CallToolResult)
  (request : CallToolRequest) (engine : Engine) : Engine :=
  if accepting engine then
    {| accepting := true;
       written := written engine ++
         [match handler request with
          | Normal result => SuccessResult result
          | Thrown error => FailureResult error
          end] |}
  else engine.

(** ** server.ts: the draft deployed on Render *)

Module ServerTs.

Definition RENDER_PUBLIC_URL : string := "https://mcp-ujqs.onrender.com".

Definition TEMPLATE_URI : string := "ui://widget/kitchen-sink-lite.html".

Definition toolDescriptorMeta : list (string * Json) :=
  [("openai/outputTemplate", JStr TEMPLATE_URI);
   ("openai/toolInvocation/invoking", JStr "Preparing the kitchen sink widget");
   ("openai/toolInvocation/invoked", JStr "Widget rendered");
   ("openai/widgetAccessible", JBool true)].

Definition toolInvocationMeta (invocation : string) : list (string * Json) :=
  toolDescriptorMeta ++ [("invocation", JStr invocation)].

Definition toolInputSchema : InputSchema :=
  {| properties :=
       [("message", "string"); ("accentColor", "string");
        ("details", "string")];
     required := ["message"];
     additionalProperties := false |}.

Definition refreshInputSchema : InputSchema :=
  {| properties := [("message", "string")];
     required := ["message"];
     additionalProperties := false |}.

Record ShowArgs := {
  message : string;
  accentColor : option string;
  details : option string }.

(** [showParser.parse(x)]: every key of the shape is checked, the issues
    of all of them are collected, keys outside the shape are dropped. *)
Definition showParser (x : list (string * Json)) : Completion ShowArgs :=
  let m := z_string ["message"] (get_property "message" x) in
  let a := z_string_optional ["accentColor"] (get_property "accentColor" x) in
  let d := z_string_optional ["details"] (get_property "details" x) in
  match m, a, d with
  | inl m, inl a, inl d =>
      Normal {| message := m; accentColor := a; details := d |}
  | _, _, _ => Thrown (ZodError (issues_of m ++ issues_of a ++ issues_of d))
  end.

Record RefreshArgs := {
  refresh_message : string }.

(** [refreshParser.parse(x)] *)
Definition refreshParser (x : list (string * Json))
  : Completion RefreshArgs :=
  match z_string ["message"] (get_property "message" x) with
  | inl m => Normal {| refresh_message := m |}
  | inr issues => Thrown (ZodError issues)
  end.

Definition read_only : list (string * bool) :=
  [("destructiveHint", false); ("openWorldHint", false);
   ("readOnlyHint", true)].

Definition tools : list Tool :=
  [{| tool_name := "kitchen-sink-show";
      tool_title := "Render kitchen sink widget";
      tool_description :=
        "Returns the widget template with the provided message.";
      inputSchema := toolInputSchema;
      tool_meta := Some toolDescriptorMeta;
      annotations := read_only |};
   {| tool_name := "kitchen-sink-refresh";
      tool_title := "Refresh from widget";
      tool_description :=
        "Lightweight echo tool called from the widget via callTool.";
      inputSchema := refreshInputSchema;
      tool_meta := Some toolDescriptorMeta;
      annotations := read_only |}].

(** The body of the [kitchen-sink-show] branch after parsing. *)
Definition show_result (rt : Runtime) (args : ShowArgs) : CallToolResult :=
  let processedAt := toISOString_now rt in
  let echoed := toUpperCase rt (message args) in
  let payload :=
    {| payload_message := message args;
       payload_accentColor := Some (default "#2d6cdf" (accentColor args));
       payload_details :=
         Some (default ("Processed at " ++ processedAt
                        ++ ". Echo (uppercased): " ++ echoed ++ ".")
                       (details args));
       fromTool := Some "kitchen-sink-show" |} in
  {| content :=
       [{| type := "text";
           text := "Widget ready with message: " ++ payload_message payload
                   ++ " (processed " ++ processedAt ++ ")" |}];
     structuredContent :=
       Some (payload_fields payload
             ++ [("processedAt", JStr processedAt);
                 ("echoed", JStr echoed)])%list;
     _meta := Some (toolInvocationMeta "kitchen-sink-show") |}.

(** The body of the [kitchen-sink-refresh] branch after parsing. *)
Definition refresh_result (args : RefreshArgs) : CallToolResult :=
  let payload :=
    {| payload_message := refresh_message args;
       payload_accentColor := Some "#2d6cdf";
       payload_details :=
         Some "Response returned from window.openai.callTool.";
       fromTool := Some "kitchen-sink-refresh" |} in
  {| content := [{| type := "text"; text := payload_message payload |}];
     structuredContent := Some (payload_fields payload);
     _meta := Some (toolInvocationMeta "kitchen-sink-refresh") |}.

(** The handler installed for [CallToolRequestSchema]. *)
Definition CallTool (rt : Runtime) (request : CallToolRequest)
  : Completion CallToolResult :=
  if String.eqb (name request) "kitchen-sink-show" then
    match showParser (default [] (arguments request)) with
    | Normal args => Normal (show_result rt args)
    | Thrown e => Thrown e
    end
  else if String.eqb (name request) "kitchen-sink-refresh" then
    match refreshParser (default [] (arguments request)) with
    | Normal args => Normal (refresh_result args)
    | Thrown e => Thrown e
    end
  else Thrown (Error ("Unknown tool: " ++ name request)).

Definition ssePath : string := "/mcp".
Definition postPath : string := "/mcp/messages".

(** [createKitchenSinkServer()]: of the handlers it installs, the one for
    tool calls is [CallTool]. *)
Definition createKitchenSinkServer : Server :=
  {| server_name := "kitchen-sink-node"; server_version := "0.1.0" |}.

(** The close handler installed on a transport, closed over [sessionId];
    [close_error] is the error [server.close()] rejects with, if it does. *)
Definition onclose (sessionId : string) (close_error : option Exn)
  : M unit :=
  _ <- sessions_delete sessionId ;;
  await_sdk (server_close sessionId)
    match close_error with
    | None => Resolves None
    | Some error => Rejects None error
    end.

Definition handleSseRequest (sdk : Sdk) : M unit :=
  res_setHeader "Access-Control-Allow-Origin" "*" ;;;
  let server := createKitchenSinkServer in
  let transport :=
    {| endpoint := RENDER_PUBLIC_URL ++ postPath;
       sessionId := transport_sessionId sdk |} in
  emit (new_SSEServerTransport (endpoint transport) (sessionId transport)) ;;;
  let sessionId := sessionId transport in
  sessions_set sessionId {| server := server; transport := transport |} ;;;
  emit (set_onclose sessionId) ;;;
  emit (set_onerror sessionId) ;;;
  try_catch
    (await_sdk (server_connect sessionId) (connect_outcome sdk))
    (fun error =>
       _ <- sessions_delete sessionId ;;
       emit (console_error "Failed to start SSE session" error) ;;;
       r <- get_res ;;
       when (negb (headersSent r))
            (res_writeHead 500 [] ;;;
             res_end "Failed to establish SSE connection")).

Definition handlePostMessage (sdk : Sdk) (url : URL) : M unit :=
  res_setHeader "Access-Control-Allow-Origin" "*" ;;;
  res_setHeader "Access-Control-Allow-Headers" "content-type" ;;;
  let sessionId := searchParams_get "sessionId" (searchParams url) in
  if negb (truthy sessionId) then
    res_writeHead 400 [] ;;; res_end "Missing sessionId query parameter"
  else
    session <- sessions_get (default "" sessionId) ;;
    match session with
    | None => res_writeHead 404 [] ;;; res_end "Unknown session"
    | Some session =>
        try_catch
          (await_sdk
             (transport_handlePostMessage (session_id session))
             (handlePostMessage_outcome sdk))
          (fun error =>
             emit (console_error "Failed to process message" error) ;;;
             r <- get_res ;;
             when (negb (headersSent r))
                  (res_writeHead 500 [] ;;;
                   res_end "Failed to process message"))
    end.

(** The listener passed to [createServer], from its second statement on:
    [req] holds the method and the URL that [new URL(...)] made of the
    request target; the first statement is in [requestListener]. *)
Definition httpServer (sdk : Sdk) (req : IncomingMessage) : M unit :=
  let url := url req in
  let cleanPath := replace_trailing_slash (pathname url) in
  emit (console_log ("📞 Incoming request: " ++ method req ++ " " ++ cleanPath)) ;;;
  if String.eqb (method req) "OPTIONS" then
    res_writeHead 204
      [("Access-Control-Allow-Origin", "*");
       ("Access-Control-Allow-Methods", "GET, POST, OPTIONS");
       ("Access-Control-Allow-Headers", "content-type")] ;;;
    res_end ""
  else if String.eqb (method req) "GET" && String.eqb cleanPath ssePath then
    emit (console_log "✅ SSE Connection established!") ;;;
    handleSseRequest sdk
  else if String.eqb (method req) "POST" && String.eqb cleanPath postPath then
    emit (console_log "✅ Message received (endpoint)!") ;;;
    handlePostMessage sdk url
  else if String.eqb (method req) "POST" && String.eqb cleanPath ssePath then
    if searchParams_has "sessionId" (searchParams url) then
      emit (console_log "✅ Message received (via base path)!") ;;;
      handlePostMessage sdk url
    else
      emit (console_log "✅ Probe/Ping received -> Sending 200 OK") ;;;
      res_writeHead 200 [] ;;; res_end "OK"
  else
    emit (console_log ("❌ 404 Not Found: " ++ cleanPath)) ;;;
    res_writeHead 404 [] ;;; res_end "Not Found".

End ServerTs.

(** ** The legacy-mode draft (forced SSE fallback) *)

Module Legacy.

Definition RENDER_PUBLIC_URL : string := "https://mcp-ujqs.onrender.com".

Definition ssePath : string := "/mcp".
Definition postPath : string := "/mcp/messages".

Definition createKitchenSinkServer : Server :=
  {| server_name := "kitchen-sink-node"; server_version := "0.1.0" |}.

Definition handleSseRequest (sdk : Sdk) : M unit :=
  let transport :=
    {| endpoint := RENDER_PUBLIC_URL ++ postPath;
       sessionId := transport_sessionId sdk |} in
  emit (new_SSEServerTransport (endpoint transport) (sessionId transport)) ;;;
  let sessionId := sessionId transport in
  let server := createKitchenSinkServer in
  sessions_set sessionId {| server := server; transport := transport |} ;;;
  emit (set_onclose sessionId) ;;;
  emit (set_onerror sessionId) ;;;
  try_catch
    (await_sdk (server_connect sessionId) (connect_outcome sdk))
    (fun error =>
       _ <- sessions_delete sessionId ;;
       emit (console_error "Failed to start SSE session" error) ;;;
       r <- get_res ;;
       when (negb (headersSent r))
            (res_writeHead 500 [] ;;; res_end "SSE Error")).

Definition handlePostMessage (sdk : Sdk) (url : URL) : M unit :=
  let sessionId := searchParams_get "sessionId" (searchParams url) in
  if negb (truthy sessionId) then
    res_writeHead 400 [] ;;; res_end "Missing sessionId"
  else
    session <- sessions_get (default "" sessionId) ;;
    match session with
    | None => res_writeHead 404 [] ;;; res_end "Unknown session"
    | Some session =>
        try_catch
          (await_sdk
             (transport_handlePostMessage (session_id session))
             (handlePostMessage_outcome sdk))
          (fun error =>
             emit (console_error "Failed to process message" error) ;;;
             r <- get_res ;;
             when (negb (headersSent r))
                  (res_writeHead 500 [] ;;; res_end "Message Error"))
    end.

(** The listener passed to [createServer], from its second statement on
    (see [requestListener] for the first). *)
Definition httpServer (sdk : Sdk) (req : IncomingMessage) : M unit :=
  let url := url req in
  let cleanPath := replace_trailing_slash (pathname url) in
  res_setHeader "Access-Control-Allow-Origin" "*" ;;;
  res_setHeader "Access-Control-Allow-Methods" "GET, POST, OPTIONS" ;;;
  res_setHeader "Access-Control-Allow-Headers" "content-type" ;;;
  emit (console_log ("ðŸ“ž Incoming request: " ++ method req ++ " " ++ cleanPath)) ;;;
  if String.eqb (method req) "OPTIONS" then
    res_writeHead 204 [] ;;; res_end ""
  else if String.eqb cleanPath "" || String.eqb cleanPath "/" then
    res_writeHead 200 [] ;;; res_end "Kitchen Sink MCP Server is online."
  else if String.eqb (method req) "GET" && String.eqb cleanPath ssePath then
    emit (console_log "âœ… SSE Connect received (Legacy Mode)") ;;;
    handleSseRequest sdk
  else if String.eqb (method req) "POST" && String.eqb cleanPath postPath then
    emit (console_log "âœ… Message received") ;;;
    handlePostMessage sdk url
  else if String.eqb (method req) "POST" && String.eqb cleanPath ssePath then
    emit (console_log "âš ï¸ Rejecting POST probe to force SSE fallback (This is GOOD!)") ;;;
    res_writeHead 405 [] ;;; res_end "Use GET for SSE"
  else
    res_writeHead 404 [] ;;; res_end "Not Found".

End Legacy.

(** ** The golden-master draft (single tool, merged session check)

    Of this draft the message router and the tool handler are embedded. *)

Module GoldenMaster.

Definition tools : list Tool :=
  [{| tool_name := "kitchen-sink-show";
      tool_title := "Render Widget";
      tool_description := "Displays a message in a widget to the user.";
      inputSchema :=
        {| properties := [("message", "string")];
           required := ["message"];
           additionalProperties := false |};
      tool_meta := None;
      annotations := [] |}].

(** The handler installed for [CallToolRequestSchema]: the arguments are
    cast, [args.message] is read as it is. *)
Definition CallTool (rt : Runtime) (request : CallToolRequest)
  : Completion CallToolResult :=
  if String.eqb (name request) "kitchen-sink-show" then
    match arguments request with
    | None =>
        Thrown (TypeError
          "Cannot read properties of undefined (reading 'message')")
    | Some args =>
        match template rt (get_property "message" args) with
        | Normal message =>
            Normal
              {| content :=
                   [{| type := "text";
                       text := "Widget displayed: " ++ dquote ++ message
                               ++ dquote |}];
                 structuredContent := None;
                 _meta := None |}
        | Thrown e => Thrown e
        end
    end
  else Thrown (Error "Tool not found").

Definition handlePostMessage (sdk : Sdk) (url : URL) : M unit :=
  let sessionId := searchParams_get "sessionId" (searchParams url) in
  registered <- sessions_has (default "" sessionId) ;;
  if negb (truthy sessionId) || negb registered then
    res_writeHead 404 [] ;;; res_end "Session not found"
  else
    session <- sessions_get (default "" sessionId) ;;
    match session with
    | Some session =>
        try_catch
          (await_sdk
             (transport_handlePostMessage (session_id session))
             (handlePostMessage_outcome sdk) ;;;
           emit (console_log "📨 Message handled by SDK"))
          (fun error => emit (console_error "❌ Message Error:" error))
    | None => ret tt
    end.

End GoldenMaster.

(** ** The server over time *)

(** The state that outlives a request: the registry, the calls made so
    far, and the responses already completed.  Each run of the listener
    and of a close handler is taken as one step: the steps of two requests
    are not interleaved at their awaits. *)
Record World := {
  registry : gmap string SessionRecord;
  log : list Effect;
  responses : list ServerResponse }.

Definition initial : World :=
  {| registry := ∅; log := []; responses := [] |}.

(** The state in which the listener starts on a new request. *)
Definition request_state (reg : gmap string SessionRecord)
  (tr : list Effect) : State :=
  {| sessions := reg; res := fresh_response; trace := tr |}.

(** What happens to the server: a request whose target made a URL (one
    whose target does not is thrown out by the first statement of the
    listener and changes nothing, see [requestListener]), or the close of
    the stream of a session. *)
Inductive Event :=
| Request (sdk : Sdk) (req : IncomingMessage)
| StreamClosed (sid : string) (close_error : option Exn).

Module ServerTsRun.
Import ServerTs.

Definition step (w : World) (e : Event) : World :=
  match e with
  | Request sdk req =>
      let st := snd (httpServer sdk req (request_state (registry w) (log w))) in
      {| registry := sessions st; log := trace st;
         responses := responses w ++ [res st] |}
  | StreamClosed sid close_error =>
      let st :=
        snd (onclose sid close_error (request_state (registry w) (log w))) in
      {| registry := sessions st; log := trace st;
         responses := responses w |}
  end.

Definition run (w : World) (evs : list Event) : World :=
  fold_left step evs w.

(** Is the request routed to [handleSseRequest]? *)
Definition opens_stream (req : IncomingMessage) : bool :=
  negb (String.eqb (method req) "OPTIONS")
  && String.eqb (method req) "GET"
  && String.eqb (replace_trailing_slash (pathname (url req))) ssePath.

(** The identifiers of the streams that are open after [evs]: a stream is
    open from the request whose [server.connect] resolved until its close
    handler has run. *)
Fixpoint remove_one (sid : string) (l : list string) : list string :=
  match l with
  | [] => []
  | x :: rest => if String.eqb x sid then rest else x :: remove_one sid rest
  end.

Definition open_after (live : list string) (e : Event) : list string :=
  match e with
  | Request sdk req =>
      if opens_stream req then
        match connect_outcome sdk with
        | Resolves _ => transport_sessionId sdk :: live
        | Rejects _ _ => live
        end
      else live
  | StreamClosed sid _ => remove_one sid live
  end.

Definition open_streams (evs : list Event) : list string :=
  fold_left open_after evs [].

(** The SDK never hands out the identifier of a stream that is open. *)
Fixpoint fresh_transports (live : list string) (evs : list Event) : Prop :=
  match evs with
  | [] => True
  | e :: rest =>
      match e with
      | Request sdk req =>
          opens_stream req = true -> transport_sessionId sdk ∉ live
      | StreamClosed _ _ => True
      end
      /\ fresh_transports (open_after live e) rest
  end.

End ServerTsRun.

(** ** Vocabulary of the statements *)

(** A response completed by [res.writeHead(status).end(text)]. *)
Definition replied (hs : list (string * string)) (status : nat)
  (text : string) : ServerResponse :=
  {| headers := hs; headersSent := true; statusCode := status;
     body := text; writableEnded := true |}.

(** The headers [ServerTs.handlePostMessage] sets itself. *)
Definition cors_post : list (string * string) :=
  [("Access-Control-Allow-Origin", "*");
   ("Access-Control-Allow-Headers", "content-type")].

(** The headers the later drafts set on every response. *)
Definition cors_all : list (string * string) :=
  [("Access-Control-Allow-Origin", "*");
   ("Access-Control-Allow-Methods", "GET, POST, OPTIONS");
   ("Access-Control-Allow-Headers", "content-type")].

Definition with_path (m : string) (p : string)
  (q : list (string * string)) : IncomingMessage :=
  {| method := m; url := {| pathname := p; searchParams := q |} |}.

Fixpoint ends_with_slash (s : string) : bool :=
  match s with
  | EmptyString => false
  | String c EmptyString => Ascii.eqb c "/"%char
  | String _ rest => ends_with_slash rest
  end.

(** Sample inputs. *)
Definition sdk_ok (sid : string) : Sdk :=
  {| transport_sessionId := sid;
     connect_outcome := Resolves (Some 200);
     handlePostMessage_outcome := Resolves (Some 202) |}.

Definition submit_to (q : list (string * string)) : URL :=
  {| pathname := "/mcp/messages"; searchParams := q |}.

(** The record [ServerTs.handleSseRequest] registers for a transport. *)
Definition opened (sid : string) : SessionRecord :=
  {| server := ServerTs.createKitchenSinkServer;
     transport :=
       {| endpoint := ServerTs.RENDER_PUBLIC_URL ++ ServerTs.postPath;
          sessionId := sid |} |}.

(** The calls [ServerTs.handleSseRequest] makes up to [server.connect]. *)
Definition handshake (sid : string) : list Effect :=
  [new_SSEServerTransport
     (ServerTs.RENDER_PUBLIC_URL ++ ServerTs.postPath) sid;
   set_onclose sid; set_onerror sid; server_connect sid].

(** No stream is opened under [sid] during [evs]. *)
Definition never_reopened (sid : string) (evs : list Event) : Prop :=
  Forall (fun e =>
            match e with
            | Request sdk req =>
                ServerTsRun.opens_stream req = true ->
                transport_sessionId sdk <> sid
            | StreamClosed _ _ => True
            end) evs.

(** The registry holds exactly the open streams, each under its own
    identifier. *)
Definition registry_tracks (live : list string) (w : World) : Prop :=
  NoDup live
  /\ (forall sid, sid ∈ live <-> is_Some (registry w !! sid))
  /\ (forall sid r, registry w !! sid = Some r -> r = opened sid).

(** The declared shape without its ban on undeclared properties. *)
Definition open_shape (schema : InputSchema) : InputSchema :=
  {| properties := properties schema; required := required schema;
     additionalProperties := true |}.

(** Upper case of the ASCII letters. *)
Definition ascii_upper (c : ascii) : ascii :=
  let n := nat_of_ascii c in
  if (97 <=? n)%nat && (n <=? 122)%nat then ascii_of_nat (n - 32) else c.

Fixpoint string_upper (s : string) : string :=
  match s with
  | EmptyString => EmptyString
  | String c rest => String (ascii_upper c) (string_upper rest)
  end.

(** String conversion for the examples: [String(v)] of a parsed JSON value
    of moderate depth. *)
Fixpoint sample_ToString (j : Json) : ToStringOutcome :=
  match j with
  | JNull => Converted "null"
  | JBool true => Converted "true"
  | JBool false => Converted "false"
  | JNum n => Converted (pretty n)
  | JStr s => Converted s
  | JArr items =>
      (fix join (l : list Json) : ToStringOutcome :=
         match l with
         | [] => Converted ""
         | x :: rest =>
             let item :=
               match x with
               | JNull => Converted ""
               | _ => sample_ToString x
               end in
             let others := join rest in
             match item, others with
             | Converted a, Converted b =>
                 Converted (match rest with
                            | [] => a
                            | _ :: _ => a ++ "," ++ b
                            end)
             | Converted _, failure => failure
             | failure, _ => failure
             end
         end) items
  | JObj fields =>
      match get_property "toString" fields with
      | Some _ => NoPrimitiveValue
      | None => Converted "[object Object]"
      end
  end.

(** A sample runtime for the examples; the statements are for every
    runtime. *)
Definition sample_runtime : Runtime :=
  {| toISOString_now := "2025-01-01T00:00:00.000Z";
     toUpperCase := string_upper;
     ToString := sample_ToString |}.

Definition call (tool : string) (args : list (string * Json))
  : CallToolRequest :=
  {| name := tool; arguments := Some args |}.

(** An SDK whose [server.connect] rejects after the status line of the
    event stream has gone out. *)
Definition sdk_fails_late (sid : string) : Sdk :=
  {| transport_sessionId := sid;
     connect_outcome := Rejects (Some 200) (Error "stream write failed");
     handlePostMessage_outcome := Resolves (Some 202) |}.

(** An SDK whose [server.connect] rejects before anything is written. *)
Definition sdk_fails_early (sid : string) : Sdk :=
  {| transport_sessionId := sid;
     connect_outcome := Rejects None (Error "already started");
     handlePostMessage_outcome := Resolves (Some 202) |}.

Definition open_request : IncomingMessage := with_path "GET" "/mcp" [].

Definition sample_events : list Event :=
  [Request (sdk_ok "s1") open_request;
   Request (sdk_ok "s2") (with_path "GET" "/mcp/" []);
   StreamClosed "s1" None;
   Request (sdk_fails_early "s3") open_request;
   Request (sdk_ok "s1") open_request].


(** ** The identifiers of the transports *)

(** Modelled from the spec: the constructor of the SDK's
    [SSEServerTransport], which is not part of this repository, gives each
    transport its [sessionId].  The specification of the stream-open
    operation has it generate a fresh unique session identifier on the
    server side; [new_sessionId issued] is such an identifier, one that is
    not among those [issued] so far. *)
Definition new_sessionId (issued : list string) : string := fresh issued.

(** What reaches the server: a request, with what [server.connect] and
    [transport.handlePostMessage] will do while it is handled, or the close
    of the stream of a session.  The identifier of a transport is not part
    of it. *)
Inductive Arrival :=
| Arrives (req : IncomingMessage) (connect post : SdkOutcome)
| Closes (sid : string) (close_error : option Exn).

(** The events of a run in which every transport gets its identifier from
    [new_sessionId]; [issued] are the identifiers handed out before.  Only
    a request routed to [handleSseRequest] constructs a transport. *)
Fixpoint with_generated_ids (issued : list string) (arrivals : list Arrival)
  : list Event :=
  match arrivals with
  | [] => []
  | Arrives req connect post :: rest =>
      let sid := new_sessionId issued in
      Request {| transport_sessionId := sid;
                 connect_outcome := connect;
                 handlePostMessage_outcome := post |} req
      :: with_generated_ids
           (if ServerTsRun.opens_stream req then sid :: issued else issued)
           rest
  | Closes sid close_error :: rest =>
      StreamClosed sid close_error :: with_generated_ids issued rest
  end.

(** The identifiers handed out once [arrivals] have been handled. *)
Fixpoint issued_after (issued : list string) (arrivals : list Arrival)
  : list string :=
  match arrivals with
  | [] => issued
  | Arrives req _ _ :: rest =>
      issued_after
        (if ServerTsRun.opens_stream req
         then new_sessionId issued :: issued else issued)
        rest
  | Closes _ _ :: rest => issued_after issued rest
  end.

(** ** The branches of the listeners *)

(** What the listener of server.ts does with a request of method [m] and
    query [q] whose path, after [replace_trailing_slash], is [clean]: its
    branches, in the order of the source. *)
Definition ServerTs_branch (sdk : Sdk) (m clean : string)
  (q : list (string * string)) (reg : gmap string SessionRecord)
  (tr : list Effect) : Completion unit * State :=
  let target := {| pathname := clean; searchParams := q |} in
  let tr1 :=
    (tr ++ [console_log ("📞 Incoming request: " ++ m ++ " " ++ clean)])%list
  in
  if String.eqb m "OPTIONS" then
    (Normal tt,
     {| sessions := reg; res := replied cors_all 204 ""; trace := tr1 |})
  else if String.eqb m "GET" && String.eqb clean "/mcp" then
    ServerTs.handleSseRequest sdk
      {| sessions := reg; res := fresh_response;
         trace := tr1 ++ [console_log "✅ SSE Connection established!"] |}
  else if String.eqb m "POST" && String.eqb clean "/mcp/messages" then
    ServerTs.handlePostMessage sdk target
      {| sessions := reg; res := fresh_response;
         trace := tr1 ++ [console_log "✅ Message received (endpoint)!"] |}
  else if String.eqb m "POST" && String.eqb clean "/mcp" then
    if searchParams_has "sessionId" q then
      ServerTs.handlePostMessage sdk target
        {| sessions := reg; res := fresh_response;
           trace :=
             tr1 ++ [console_log "✅ Message received (via base path)!"] |}
    else
      (Normal tt,
       {| sessions := reg; res := replied [] 200 "OK";
          trace :=
            tr1 ++ [console_log "✅ Probe/Ping received -> Sending 200 OK"] |})
  else
    (Normal tt,
     {| sessions := reg; res := replied [] 404 "Not Found";
        trace := tr1 ++ [console_log ("❌ 404 Not Found: " ++ clean)] |}).

(** The same for the listener of the legacy draft. *)
Definition Legacy_branch (sdk : Sdk) (m clean : string)
  (q : list (string * string)) (reg : gmap string SessionRecord)
  (tr : list Effect) : Completion unit * State :=
  let target := {| pathname := clean; searchParams := q |} in
  let tr1 :=
    (tr ++ [console_log ("ðŸ“ž Incoming request: " ++ m ++ " " ++ clean)])%list
  in
  let started (t : list Effect) :=
    {| sessions := reg;
       res := {| headers := cors_all; headersSent := false;
                 statusCode := 200; body := ""; writableEnded := false |};
       trace := t |} in
  if String.eqb m "OPTIONS" then
    (Normal tt,
     {| sessions := reg; res := replied cors_all 204 ""; trace := tr1 |})
  else if String.eqb clean "" || String.eqb clean "/" then
    (Normal tt,
     {| sessions := reg;
        res := replied cors_all 200 "Kitchen Sink MCP Server is online.";
        trace := tr1 |})
  else if String.eqb m "GET"
          && String.eqb clean "/mcp" then
    Legacy.handleSseRequest sdk
      (started (tr1 ++ [console_log "âœ… SSE Connect received (Legacy Mode)"])%list)
  else if String.eqb m "POST"
          && String.eqb clean "/mcp/messages" then
    Legacy.handlePostMessage sdk target
      (started (tr1 ++ [console_log "âœ… Message received"])%list)
  else if String.eqb m "POST"
          && String.eqb clean "/mcp" then
    (Normal tt,
     {| sessions := reg; res := replied cors_all 405 "Use GET for SSE";
        trace := tr1 ++ [console_log "âš ï¸ Rejecting POST probe to force SSE fallback (This is GOOD!)"] |})
  else
    (Normal tt,
     {| sessions := reg; res := replied cors_all 404 "Not Found";
        trace := tr1 |}).

(** ** The request as Node hands it over *)

(** The fields of [req] the listeners read before they have a URL:
    [req.method], [req.url] and [req.headers.host]. *)
Record ClientRequest := {
  req_method : string;
  req_url : option string;
  headers_host : option string }.

(** [a ?? b] and [a || b] on a string that may be undefined. *)
Definition nullish_or (a : option string) (b : string) : string :=
  default b a.

Definition falsy_or (a : option string) (b : string) : string :=
  match a with
  | Some s => if String.eqb s "" then b else s
  | None => b
  end.

(** The whole listener: its first statement is
    [new URL(req.url ?? "", `http://${host}`)], which throws a [TypeError]
    when the target and the base do not make a URL ([new_URL] answers
    [None]); [rest] is the listener from the second statement on. *)
Definition requestListener (new_URL : string -> string -> option URL)
  (host : string) (rest : IncomingMessage -> M unit) (req : ClientRequest)
  : M unit :=
  match new_URL (nullish_or (req_url req) "") ("http://" ++ host) with
  | None => throw (TypeError "Invalid URL")
  | Some url => rest {| method := req_method req; url := url |}
  end.

Definition ServerTs_listener (new_URL : string -> string -> option URL)
  (sdk : Sdk) (req : ClientRequest) : M unit :=
  requestListener new_URL (nullish_or (headers_host req) "localhost")
    (ServerTs.httpServer sdk) req.

Definition Legacy_listener (new_URL : string -> string -> option URL)
  (sdk : Sdk) (req : ClientRequest) : M unit :=
  requestListener new_URL (nullish_or (headers_host req) "localhost")
    (Legacy.httpServer sdk) req.
(** ** Widget assets on disk *)

(** What [readWidgetHtml] asks of the host: the resolved assets directory,
    [path.join], the three [fs] calls it makes, and the default order of
    [Array.prototype.sort].  A call into [fs] may throw. *)
Record Host := {
  ASSETS_DIR : string;
  path_join : string -> string -> string;
  existsSync : string -> bool;
  readFileSync : string -> Completion string;
  readdirSync : string -> Completion (list string);
  sort : list string -> list string }.

(** [s.startsWith(p)] *)
Definition startsWith (s p : string) : bool := String.prefix p s.

(** [s.endsWith(p)] *)
Definition endsWith (s p : string) : bool :=
  (String.length p <=? String.length s)%nat
  && String.eqb
       (String.substring (String.length s - String.length p)
          (String.length p) s) p.

(** Sequencing of calls that may throw. *)
Definition and_then {A B} (c : Completion A) (k : A -> Completion B)
  : Completion B :=
  match c with
  | Normal a => k a
  | Thrown e => Thrown e
  end.

(** [l[l.length - 1]] *)
Definition last_item (l : list string) : option string :=
  List.last (List.map Some l) None.

Module ServerTsAssets.

(** [readWidgetHtml()] of server.ts. *)
Definition readWidgetHtml (h : Host) : Completion string :=
  if negb (existsSync h (ASSETS_DIR h)) then
    Thrown (Error ("Widget assets not found. Expected directory "
                   ++ ASSETS_DIR h ++ ". Run " ++ dquote ++ "pnpm run build"
                   ++ dquote ++ " before starting the server."))
  else
    let directPath := path_join h (ASSETS_DIR h) "kitchen-sink-lite.html" in
    and_then
      (if existsSync h directPath then
         and_then (readFileSync h directPath) (fun s => Normal (Some s))
       else
         and_then (readdirSync h (ASSETS_DIR h)) (fun files =>
           let candidates :=
             sort h (List.filter
                       (fun file => startsWith file "kitchen-sink-lite-"
                                    && endsWith file ".html") files) in
           let fallback := last_item candidates in
           if truthy fallback then
             and_then (readFileSync h (path_join h (ASSETS_DIR h)
                                         (default "" fallback)))
                      (fun s => Normal (Some s))
           else Normal None))
      (fun htmlContents =>
         if negb (truthy htmlContents) then
           Thrown (Error ("Widget HTML for " ++ dquote ++ "kitchen-sink-lite"
                          ++ dquote ++ " not found in " ++ ASSETS_DIR h
                          ++ ". Run " ++ dquote ++ "pnpm run build" ++ dquote
                          ++ " to generate the assets."))
         else Normal (default "" htmlContents)).

End ServerTsAssets.

Module LegacyAssets.

Definition placeholder : string :=
  "<div><h1>Widget Placeholder</h1><p>Please run pnpm build.</p></div>".

(** What [readWidgetHtml()] of the legacy draft hands back: the markup,
    and the error it passed to [console.warn] if it caught one. *)
Record Loaded := {
  html : string;
  warned : option Exn }.

(** The body of the [try] block: the value [htmlContents] ends with. *)
Definition try_read (h : Host) : Completion (option string) :=
  if existsSync h (ASSETS_DIR h) then
    let directPath := path_join h (ASSETS_DIR h) "kitchen-sink-lite.html" in
    if existsSync h directPath then
      and_then (readFileSync h directPath) (fun s => Normal (Some s))
    else
      and_then (readdirSync h (ASSETS_DIR h)) (fun files =>
        let candidates :=
          sort h (List.filter
                    (fun f => startsWith f "kitchen-sink-lite"
                              && endsWith f ".html") files) in
        if (0 <? List.length candidates)%nat then
          and_then (readFileSync h (path_join h (ASSETS_DIR h)
                                      (default "" (last_item candidates))))
                   (fun s => Normal (Some s))
        else Normal None)
  else Normal None.

(** [readWidgetHtml()] of the legacy draft: an assignment that did not
    happen because a call threw leaves [htmlContents] null. *)
Definition readWidgetHtml (h : Host) : Loaded :=
  let attempt := try_read h in
  let htmlContents :=
    match attempt with Normal v => v | Thrown _ => None end in
  {| html := if truthy htmlContents then default "" htmlContents
             else placeholder;
     warned := match attempt with Normal _ => None | Thrown e => Some e end |}.

End LegacyAssets.

(** ** The golden-master draft: streams and listener *)

Module GoldenMasterHttp.

Definition RENDER_PUBLIC_URL : string := "https://mcp-ujqs.onrender.com".

Definition ssePath : string := "/mcp".
Definition postPath : string := "/mcp/messages".

Definition createServerInstance : Server :=
  {| server_name := "kitchen-sink-node"; server_version := "0.1.0" |}.

Definition onclose (sessionId : string) (close_error : option Exn)
  : M unit :=
  emit (console_log "🔌 SSE: Closed.") ;;;
  _ <- sessions_delete sessionId ;;
  await_sdk (server_close sessionId)
    match close_error with
    | None => Resolves None
    | Some error => Rejects None error
    end.

Definition handleSseRequest (sdk : Sdk) : M unit :=
  emit (console_log "🔌 SSE: New connection...") ;;;
  let transport :=
    {| endpoint := RENDER_PUBLIC_URL ++ postPath;
       sessionId := transport_sessionId sdk |} in
  emit (new_SSEServerTransport (endpoint transport) (sessionId transport)) ;;;
  let sessionId := sessionId transport in
  let server := createServerInstance in
  sessions_set sessionId {| server := server; transport := transport |} ;;;
  emit (set_onclose sessionId) ;;;
  try_catch
    (await_sdk (server_connect sessionId) (connect_outcome sdk) ;;;
     emit (console_log ("✅ SSE: Session " ++ sessionId ++ " active.")))
    (fun error =>
       emit (console_error "❌ SSE Error:" error) ;;;
       _ <- sessions_delete sessionId ;;
       ret tt).

(** The listener passed to [createServer], from its second statement on
    (see [requestListener] for the first). *)
Definition httpServer (sdk : Sdk) (req : IncomingMessage) : M unit :=
  let url := url req in
  let cleanPath := replace_trailing_slash (pathname url) in
  let messages_or_not_found :=
    if String.eqb cleanPath postPath && String.eqb (method req) "POST" then
      GoldenMaster.handlePostMessage sdk url
    else
      res_writeHead 404 [] ;;; res_end "Not Found" in
  res_setHeader "Access-Control-Allow-Origin" "*" ;;;
  res_setHeader "Access-Control-Allow-Methods" "GET, POST, OPTIONS" ;;;
  res_setHeader "Access-Control-Allow-Headers" "content-type" ;;;
  if String.eqb (method req) "OPTIONS" then
    res_writeHead 204 [] ;;; res_end ""
  else if (String.eqb cleanPath "" || String.eqb cleanPath "/")
          && String.eqb (method req) "GET" then
    res_writeHead 200 [] ;;; res_end "MCP Server Online"
  else if String.eqb cleanPath ssePath then
    if String.eqb (method req) "GET" then handleSseRequest sdk
    else if String.eqb (method req) "POST" then
      res_writeHead 405 [] ;;; res_end "Use GET"
    else messages_or_not_found
  else messages_or_not_found.

End GoldenMasterHttp.

(** The whole listener of the golden-master draft; its base is
    [`http://${req.headers.host || "localhost"}`]. *)
Definition GoldenMaster_listener (new_URL : string -> string -> option URL)
  (sdk : Sdk) (req : ClientRequest) : M unit :=
  requestListener new_URL (falsy_or (headers_host req) "localhost")
    (GoldenMasterHttp.httpServer sdk) req.

(** ** Vocabulary of the further statements *)

(** A response the handler has not completed: [hs] are the headers set so
    far, [head] the status line the SDK wrote on it, if it wrote one. *)
Definition left_by_sdk (hs : list (string * string)) (head : option nat)
  : ServerResponse :=
  {| headers := hs;
     headersSent := match head with Some _ => true | None => false end;
     statusCode := default 200 head;
     body := "";
     writableEnded := false |}.

(** During [evs] the stream of [sid] is left alone: it is not closed, and
    no request constructs another transport under [sid]. *)
Definition left_alone (sid : string) (evs : list Event) : Prop :=
  Forall (fun e =>
            match e with
            | Request sdk req =>
                ServerTsRun.opens_stream req = true ->
                transport_sessionId sdk <> sid
            | StreamClosed closed _ => closed <> sid
            end) evs.

(** A host whose assets directory holds [files], for the examples. *)
Definition sample_host (files : list (string * string)) : Host :=
  {| ASSETS_DIR := "/app/assets";
     path_join := fun d f => d ++ "/" ++ f;
     existsSync := fun p =>
       String.eqb p "/app/assets"
       || existsb (fun kv => String.eqb p ("/app/assets/" ++ fst kv)) files;
     readFileSync := fun p =>
       match List.find (fun kv => String.eqb p ("/app/assets/" ++ fst kv))
                       files with
       | Some kv => Normal (snd kv)
       | None => Thrown (Error "ENOENT")
       end;
     readdirSync := fun _ => Normal (map fst files);
     sort := fun l => l |}.


(** * Properties *)

(** ** Proof tools *)

Ltac js_unfold :=
  unfold await_sdk, res_setHeader, res_writeHead, res_end, sessions_set,
    sessions_get, sessions_has, sessions_delete, when, emit, get_res,
    set_res, try_catch, bind, ret, throw, request_state in *.

Ltac js := js_unfold; simpl in *.

Lemma truthy_Some (s : string) : s <> "" -> truthy (Some s) = true.
Proof.
  intros Hs. unfold truthy.
  destruct (String.eqb_spec s "") as [E | _]; [contradiction | reflexivity].
Qed.

Lemma truthy_false (o : option string) :
  truthy o = false <-> o = None \/ o = Some "".
Proof.
  destruct o as [s|]; simpl.
  - destruct (String.eqb_spec s "") as [-> | N]; simpl; split; auto.
    + discriminate.
    + intros [H | H]; [discriminate | congruence].
  - split; auto.
Qed.

(** ** The trailing slash *)

Lemma replace_trailing_slash_added (p : string) :
  replace_trailing_slash (p ++ "/") = p.
Proof.
  induction p as [| c p IH]; [reflexivity |].
  change (String c p ++ "/") with (String c (p ++ "/")).
  simpl. rewrite IH.
  destruct p; reflexivity.
Qed.

Lemma replace_trailing_slash_none (p : string) :
  ends_with_slash p = false -> replace_trailing_slash p = p.
Proof.
  induction p as [| c p IH]; [reflexivity |].
  destruct p as [| d p].
  - cbn [ends_with_slash replace_trailing_slash]. intros H.
    rewrite H. reflexivity.
  - intros H. change (ends_with_slash (String d p) = false) in H.
    change (String c (replace_trailing_slash (String d p)) = String c (String d p)).
    now rewrite IH.
Qed.

Lemma replace_trailing_slash_one (p : string) :
  replace_trailing_slash p = p \/ p = replace_trailing_slash p ++ "/".
Proof.
  induction p as [| c p IH]; [left; reflexivity |].
  destruct p as [| d p].
  - cbn [replace_trailing_slash].
    destruct (Ascii.eqb_spec c "/"%char) as [-> | N]; auto.
  - change (replace_trailing_slash (String c (String d p)))
      with (String c (replace_trailing_slash (String d p))).
    destruct IH as [IH | IH].
    + left. now rewrite IH.
    + right.
      change (String c (String d p) =
              String c (replace_trailing_slash (String d p) ++ "/")).
      now rewrite <- IH.
Qed.

(** ** Routing a submitted message *)

Section RouteMessage.
Variables (sdk : Sdk) (url : URL).
Variables (reg : gmap string SessionRecord) (tr : list Effect).

Lemma ServerTs_post_unknown (sid : string) :
  searchParams_get "sessionId" (searchParams url) = Some sid ->
  sid <> "" -> reg !! sid = None ->
  ServerTs.handlePostMessage sdk url (request_state reg tr) =
  (Normal tt, {| sessions := reg;
                 res := replied cors_post 404 "Unknown session";
                 trace := tr |}).
Proof.
  intros Hq Hne Hno. unfold ServerTs.handlePostMessage.
  rewrite Hq, (truthy_Some _ Hne). js. rewrite Hno. reflexivity.
Qed.

Lemma ServerTs_post_missing :
  truthy (searchParams_get "sessionId" (searchParams url)) = false ->
  ServerTs.handlePostMessage sdk url (request_state reg tr) =
  (Normal tt, {| sessions := reg;
                 res := replied cors_post 400
                          "Missing sessionId query parameter";
                 trace := tr |}).
Proof.
  intros Hq. unfold ServerTs.handlePostMessage. rewrite Hq. reflexivity.
Qed.

Lemma Legacy_post_missing :
  truthy (searchParams_get "sessionId" (searchParams url)) = false ->
  Legacy.handlePostMessage sdk url (request_state reg tr) =
  (Normal tt, {| sessions := reg;
                 res := replied [] 400 "Missing sessionId";
                 trace := tr |}).
Proof.
  intros Hq. unfold Legacy.handlePostMessage. rewrite Hq. reflexivity.
Qed.

Lemma GoldenMaster_post_missing :
  truthy (searchParams_get "sessionId" (searchParams url)) = false ->
  GoldenMaster.handlePostMessage sdk url (request_state reg tr) =
  (Normal tt, {| sessions := reg;
                 res := replied [] 404 "Session not found";
                 trace := tr |}).
Proof.
  intros Hq. unfold GoldenMaster.handlePostMessage. rewrite Hq. reflexivity.
Qed.

Lemma GoldenMaster_post_unknown (sid : string) :
  searchParams_get "sessionId" (searchParams url) = Some sid ->
  reg !! sid = None ->
  GoldenMaster.handlePostMessage sdk url (request_state reg tr) =
  (Normal tt, {| sessions := reg;
                 res := replied [] 404 "Session not found";
                 trace := tr |}).
Proof.
  intros Hq Hno. unfold GoldenMaster.handlePostMessage. rewrite Hq. js.
  rewrite Hno.
  rewrite bool_decide_eq_false_2 by (intros [x Hx]; discriminate).
  rewrite orb_true_r. reflexivity.
Qed.

End RouteMessage.

(** ** Opening a stream *)

Section OpenStream.
Variables (sdk : Sdk).
Variables (reg : gmap string SessionRecord) (tr : list Effect).

Let sid := transport_sessionId sdk.

Lemma ServerTs_open_resolves (head : option nat) :
  connect_outcome sdk = Resolves head ->
  ServerTs.handleSseRequest sdk (request_state reg tr) =
  (Normal tt,
   {| sessions := <[sid := opened sid]> reg;
      res := {| headers := [("Access-Control-Allow-Origin", "*")];
                headersSent := bool_decide (is_Some head);
                statusCode := default 200 head;
                body := ""; writableEnded := false |};
      trace := tr ++ handshake sid |}).
Proof.
  intros Hc. unfold ServerTs.handleSseRequest. rewrite Hc.
  destruct head; js; rewrite <- !app_assoc; reflexivity.
Qed.

Lemma ServerTs_open_rejects_unsent (error : Exn) :
  connect_outcome sdk = Rejects None error ->
  ServerTs.handleSseRequest sdk (request_state reg tr) =
  (Normal tt,
   {| sessions := delete sid (<[sid := opened sid]> reg);
      res := replied [("Access-Control-Allow-Origin", "*")] 500
               "Failed to establish SSE connection";
      trace := tr ++ handshake sid
               ++ [console_error "Failed to start SSE session" error] |}).
Proof.
  intros Hc. unfold ServerTs.handleSseRequest. rewrite Hc. js.
  rewrite <- !app_assoc. reflexivity.
Qed.

Lemma ServerTs_open_rejects_sent (status : nat) (error : Exn) :
  connect_outcome sdk = Rejects (Some status) error ->
  ServerTs.handleSseRequest sdk (request_state reg tr) =
  (Normal tt,
   {| sessions := delete sid (<[sid := opened sid]> reg);
      res := {| headers := [("Access-Control-Allow-Origin", "*")];
                headersSent := true; statusCode := status;
                body := ""; writableEnded := false |};
      trace := tr ++ handshake sid
               ++ [console_error "Failed to start SSE session" error] |}).
Proof.
  intros Hc. unfold ServerTs.handleSseRequest. rewrite Hc. js.
  rewrite <- !app_assoc. reflexivity.
Qed.

End OpenStream.

Lemma ServerTs_open_registry (sdk : Sdk) (st : State) :
  headersSent (res st) = false ->
  sessions (snd (ServerTs.handleSseRequest sdk st)) =
  match connect_outcome sdk with
  | Resolves _ =>
      <[transport_sessionId sdk := opened (transport_sessionId sdk)]>
        (sessions st)
  | Rejects _ _ =>
      delete (transport_sessionId sdk)
        (<[transport_sessionId sdk := opened (transport_sessionId sdk)]>
           (sessions st))
  end.
Proof.
  intros Hs. unfold ServerTs.handleSseRequest.
  destruct (connect_outcome sdk) as [[s|] | [s|] e]; js; rewrite Hs;
    reflexivity.
Qed.

Lemma ServerTs_post_registry (sdk : Sdk) (url : URL) (st : State) :
  sessions (snd (ServerTs.handlePostMessage sdk url st)) = sessions st.
Proof.
  unfold ServerTs.handlePostMessage.
  destruct (handlePostMessage_outcome sdk) as [[s|] | [s|] e]; js;
    (destruct (headersSent (res st)); simpl; [reflexivity |]);
    (destruct (truthy _); simpl; [| reflexivity]);
    (destruct (sessions st !! _); reflexivity).
Qed.

Lemma ServerTs_listener_registry (sdk : Sdk) (req : IncomingMessage)
  (reg : gmap string SessionRecord) (tr : list Effect) :
  sessions (snd (ServerTs.httpServer sdk req (request_state reg tr))) =
  if ServerTsRun.opens_stream req then
    match connect_outcome sdk with
    | Resolves _ =>
        <[transport_sessionId sdk := opened (transport_sessionId sdk)]> reg
    | Rejects _ _ =>
        delete (transport_sessionId sdk)
          (<[transport_sessionId sdk := opened (transport_sessionId sdk)]>
             reg)
    end
  else reg.
Proof.
  unfold ServerTs.httpServer, ServerTsRun.opens_stream.
  set (clean := replace_trailing_slash (pathname (url req))).
  unfold bind at 1. unfold emit at 1. cbn [request_state sessions res trace].
  destruct (String.eqb (method req) "OPTIONS"); [reflexivity |].
  cbn [negb andb].
  destruct (String.eqb (method req) "GET").
  - cbn [andb]. destruct (String.eqb clean ServerTs.ssePath).
    + unfold bind at 1, emit at 1. cbn [sessions res trace].
      now rewrite ServerTs_open_registry.
    + destruct (String.eqb (method req) "POST"); cbn [andb].
      * destruct (String.eqb clean ServerTs.postPath).
        -- unfold bind at 1, emit at 1. cbn [sessions res trace].
           now rewrite ServerTs_post_registry.
        -- reflexivity.
      * reflexivity.
  - cbn [andb]. destruct (String.eqb (method req) "POST"); cbn [andb].
    + destruct (String.eqb clean ServerTs.postPath).
      * unfold bind at 1, emit at 1. cbn [sessions res trace].
        now rewrite ServerTs_post_registry.
      * destruct (String.eqb clean ServerTs.ssePath).
        -- destruct (searchParams_has _ _).
           ++ unfold bind at 1, emit at 1. cbn [sessions res trace].
              now rewrite ServerTs_post_registry.
           ++ reflexivity.
        -- reflexivity.
    + reflexivity.
Qed.

(** ** The registry along a run *)

Lemma ServerTs_onclose (sid : string) (close_error : option Exn)
  (st : State) :
  ServerTs.onclose sid close_error st =
  (match close_error with
   | None => Normal tt
   | Some error => Thrown error
   end,
   {| sessions := delete sid (sessions st); res := res st;
      trace := trace st ++ [server_close sid] |}).
Proof. destruct st, close_error; reflexivity. Qed.

Lemma step_request_registry (w : World) (sdk : Sdk) (req : IncomingMessage) :
  registry (ServerTsRun.step w (Request sdk req)) =
  if ServerTsRun.opens_stream req then
    match connect_outcome sdk with
    | Resolves _ =>
        <[transport_sessionId sdk := opened (transport_sessionId sdk)]>
          (registry w)
    | Rejects _ _ => delete (transport_sessionId sdk) (registry w)
    end
  else registry w.
Proof.
  cbn [ServerTsRun.step registry]. rewrite ServerTs_listener_registry.
  destruct (ServerTsRun.opens_stream req); [| reflexivity].
  destruct (connect_outcome sdk); [reflexivity |].
  apply delete_insert_eq.
Qed.

Lemma step_closed_registry (w : World) (sid : string)
  (close_error : option Exn) :
  registry (ServerTsRun.step w (StreamClosed sid close_error)) =
  delete sid (registry w).
Proof.
  cbn [ServerTsRun.step registry]. now rewrite ServerTs_onclose.
Qed.

Lemma elem_of_remove_one (sid x : string) (l : list string) :
  NoDup l -> (x ∈ ServerTsRun.remove_one sid l <-> x ∈ l /\ x <> sid).
Proof.
  induction l as [| y l IH]; intros Hnd; simpl.
  - rewrite elem_of_nil. tauto.
  - apply NoDup_cons in Hnd as [Hy Hl].
    destruct (String.eqb_spec y sid) as [-> | Hne].
    + rewrite elem_of_cons. split.
      * intros Hx. split; [now right |]. now intros ->.
      * intros [[-> | Hx] Hn]; [contradiction | assumption].
    + rewrite !elem_of_cons, IH by assumption. split.
      * intros [-> | [Hx Hn]]; auto.
      * intros [[-> | Hx] Hn]; auto.
Qed.

Lemma NoDup_remove_one (sid : string) (l : list string) :
  NoDup l -> NoDup (ServerTsRun.remove_one sid l).
Proof.
  induction l as [| y l IH]; intros Hnd; simpl; [constructor |].
  apply NoDup_cons in Hnd as [Hy Hl].
  destruct (String.eqb y sid); [assumption |].
  apply NoDup_cons. split; [| now apply IH].
  rewrite elem_of_remove_one by assumption. tauto.
Qed.

Lemma registry_tracks_step (live : list string) (w : World) (e : Event) :
  registry_tracks live w ->
  match e with
  | Request sdk req =>
      ServerTsRun.opens_stream req = true -> transport_sessionId sdk ∉ live
  | StreamClosed _ _ => True
  end ->
  registry_tracks (ServerTsRun.open_after live e) (ServerTsRun.step w e).
Proof.
  intros (Hnd & Hdom & Hrec) Hfresh. destruct e as [sdk req | sid ce].
  - unfold registry_tracks. rewrite step_request_registry.
    cbn [ServerTsRun.open_after].
    destruct (ServerTsRun.opens_stream req);
      [| exact (conj Hnd (conj Hdom Hrec))].
    specialize (Hfresh eq_refl).
    assert (Hnone : registry w !! transport_sessionId sdk = None).
    { destruct (registry w !! transport_sessionId sdk) eqn:E; [| reflexivity].
      exfalso. apply Hfresh, Hdom. eauto. }
    destruct (connect_outcome sdk).
    + split; [| split].
      * apply NoDup_cons. now split.
      * intros sid. rewrite lookup_insert_is_Some', elem_of_cons, Hdom.
        split; intros [-> | H]; auto.
      * intros sid r.
        destruct (decide (transport_sessionId sdk = sid)) as [<- | Hne].
        -- rewrite lookup_insert_eq. congruence.
        -- rewrite lookup_insert_ne by assumption. apply Hrec.
    + rewrite delete_id by assumption. exact (conj Hnd (conj Hdom Hrec)).
  - unfold registry_tracks. rewrite step_closed_registry.
    cbn [ServerTsRun.open_after]. split; [| split].
    + now apply NoDup_remove_one.
    + intros x. rewrite elem_of_remove_one by assumption.
      rewrite lookup_delete_is_Some, Hdom. split; intros [? ?]; split; auto.
    + intros x r. rewrite lookup_delete_Some. intros [_ Hx]. now apply Hrec.
Qed.

Lemma registry_tracks_run (evs : list Event) :
  forall (live : list string) (w : World),
    registry_tracks live w ->
    ServerTsRun.fresh_transports live evs ->
    registry_tracks (fold_left ServerTsRun.open_after evs live)
                    (ServerTsRun.run w evs).
Proof.
  induction evs as [| e evs IH]; intros live w Hinv Hfresh; [exact Hinv |].
  destruct Hfresh as [He Hrest]. simpl. apply IH; [| exact Hrest].
  apply registry_tracks_step; assumption.
Qed.

Lemma registry_tracks_initial : registry_tracks [] initial.
Proof.
  split; [constructor |]. split.
  - intros sid. simpl. rewrite lookup_empty, elem_of_nil. split; [tauto |].
    intros [x Hx]. discriminate.
  - intros sid r. simpl. rewrite lookup_empty. discriminate.
Qed.

Lemma closed_stays_unknown (sid : string) (evs : list Event) :
  forall w : World,
    registry w !! sid = None ->
    never_reopened sid evs ->
    registry (ServerTsRun.run w evs) !! sid = None.
Proof.
  induction evs as [| e evs IH]; intros w Hnone Hev; [exact Hnone |].
  inversion Hev as [| ? ? He Hrest]; subst. simpl. apply IH; [| exact Hrest].
  destruct e as [sdk req | sid' ce].
  - rewrite step_request_registry.
    destruct (ServerTsRun.opens_stream req); [| exact Hnone].
    specialize (He eq_refl).
    destruct (connect_outcome sdk).
    + now rewrite lookup_insert_ne.
    + apply lookup_delete_None. now right.
  - rewrite step_closed_registry. apply lookup_delete_None. now right.
Qed.

(** ** The listener *)

Section Listener.
Variables (sdk : Sdk) (q : list (string * string)).
Variables (reg : gmap string SessionRecord) (tr : list Effect).

Lemma ServerTs_listener_slash (m p : string) (st : State) :
  ends_with_slash p = false ->
  ServerTs.httpServer sdk (with_path m (p ++ "/") q) st =
  ServerTs.httpServer sdk (with_path m p q) st.
Proof.
  intros Hp. unfold ServerTs.httpServer, ServerTs.handlePostMessage.
  cbn [with_path url pathname searchParams method].
  now rewrite replace_trailing_slash_added, replace_trailing_slash_none.
Qed.

Lemma Legacy_listener_slash (m p : string) (st : State) :
  ends_with_slash p = false ->
  Legacy.httpServer sdk (with_path m (p ++ "/") q) st =
  Legacy.httpServer sdk (with_path m p q) st.
Proof.
  intros Hp. unfold Legacy.httpServer, Legacy.handlePostMessage.
  cbn [with_path url pathname searchParams method].
  now rewrite replace_trailing_slash_added, replace_trailing_slash_none.
Qed.

Lemma ServerTs_probe (p : string) :
  replace_trailing_slash p = "/mcp" ->
  searchParams_has "sessionId" q = false ->
  ServerTs.httpServer sdk (with_path "POST" p q) (request_state reg tr) =
  (Normal tt,
   {| sessions := reg; res := replied [] 200 "OK";
      trace := tr ++ [console_log "📞 Incoming request: POST /mcp";
                      console_log
                        "✅ Probe/Ping received -> Sending 200 OK"] |}).
Proof.
  intros Hp Hq. unfold ServerTs.httpServer.
  cbn [with_path url pathname searchParams method].
  rewrite Hp, Hq. js. rewrite <- !app_assoc. reflexivity.
Qed.

Lemma Legacy_probe (p : string) :
  replace_trailing_slash p = "/mcp" ->
  exists lines,
    Legacy.httpServer sdk (with_path "POST" p q) (request_state reg tr) =
    (Normal tt,
     {| sessions := reg; res := replied cors_all 405 "Use GET for SSE";
        trace := tr ++ map console_log lines |}).
Proof.
  intros Hp. unfold Legacy.httpServer.
  cbn [with_path url pathname searchParams method].
  rewrite Hp. js. eexists [_; _]. rewrite <- !app_assoc. reflexivity.
Qed.

Lemma Legacy_health (m p : string) :
  m <> "OPTIONS" ->
  replace_trailing_slash p = "" \/ replace_trailing_slash p = "/" ->
  exists lines,
    Legacy.httpServer sdk (with_path m p q) (request_state reg tr) =
    (Normal tt,
     {| sessions := reg;
        res := replied cors_all 200 "Kitchen Sink MCP Server is online.";
        trace := tr ++ map console_log lines |}).
Proof.
  intros Hm Hp. apply String.eqb_neq in Hm. unfold Legacy.httpServer.
  cbn [with_path url pathname searchParams method].
  exists ["ðŸ“ž Incoming request: " ++ m ++ " " ++ replace_trailing_slash p].
  destruct Hp as [-> | ->]; js; rewrite Hm; reflexivity.
Qed.

Lemma ServerTs_root (m p : string) :
  m <> "OPTIONS" ->
  replace_trailing_slash p = "" \/ replace_trailing_slash p = "/" ->
  exists lines,
    ServerTs.httpServer sdk (with_path m p q) (request_state reg tr) =
    (Normal tt,
     {| sessions := reg; res := replied [] 404 "Not Found";
        trace := tr ++ map console_log lines |}).
Proof.
  intros Hm Hp. apply String.eqb_neq in Hm. unfold ServerTs.httpServer.
  cbn [with_path url pathname searchParams method].
  exists ["📞 Incoming request: " ++ m ++ " " ++ replace_trailing_slash p;
          "❌ 404 Not Found: " ++ replace_trailing_slash p].
  destruct Hp as [-> | ->]; js; rewrite Hm;
    rewrite !andb_false_r; js; rewrite <- !app_assoc; reflexivity.
Qed.

End Listener.

(** ** Tool dispatch *)

Lemma registered_names (n : string) :
  In n (map tool_name ServerTs.tools) <->
  n = "kitchen-sink-show" \/ n = "kitchen-sink-refresh".
Proof. simpl. intuition congruence. Qed.

Lemma CallTool_show (rt : Runtime) (args : option (list (string * Json))) :
  ServerTs.CallTool rt {| name := "kitchen-sink-show"; arguments := args |} =
  match ServerTs.showParser (default [] args) with
  | Normal parsed => Normal (ServerTs.show_result rt parsed)
  | Thrown e => Thrown e
  end.
Proof. reflexivity. Qed.

Lemma CallTool_refresh (rt : Runtime) (args : option (list (string * Json))) :
  ServerTs.CallTool rt
    {| name := "kitchen-sink-refresh"; arguments := args |} =
  match ServerTs.refreshParser (default [] args) with
  | Normal parsed => Normal (ServerTs.refresh_result parsed)
  | Thrown e => Thrown e
  end.
Proof. reflexivity. Qed.

Lemma CallTool_unknown (rt : Runtime) (request : CallToolRequest) :
  ~ In (name request) (map tool_name ServerTs.tools) ->
  ServerTs.CallTool rt request =
  Thrown (Error ("Unknown tool: " ++ name request)).
Proof.
  rewrite registered_names. intros Hn. unfold ServerTs.CallTool.
  destruct (String.eqb_spec (name request) "kitchen-sink-show") as [E | _];
    [tauto |].
  destruct (String.eqb_spec (name request) "kitchen-sink-refresh") as [E | _];
    [tauto | reflexivity].
Qed.

Lemma showParser_throws (x : list (string * Json)) (e : Exn) :
  ServerTs.showParser x = Thrown e ->
  exists issues, e = ZodError issues /\ issues <> [].
Proof.
  unfold ServerTs.showParser, z_string_optional, z_string.
  destruct (get_property "message" x) as [[] |];
    destruct (get_property "accentColor" x) as [[] |];
    destruct (get_property "details" x) as [[] |];
    cbn; intros H; inversion H; eexists; (split; [reflexivity | discriminate]).
Qed.

Lemma showParser_required (x : list (string * Json)) :
  get_property "message" x = None ->
  exists issues,
    ServerTs.showParser x = Thrown (ZodError issues)
    /\ In (invalid_type ["message"] None) issues.
Proof.
  intros Hm. unfold ServerTs.showParser, z_string_optional, z_string.
  rewrite Hm.
  destruct (get_property "accentColor" x) as [[] |];
    destruct (get_property "details" x) as [[] |];
    cbn; eexists; (split; [reflexivity | left; reflexivity]).
Qed.

Lemma showParser_shape (x : list (string * Json)) :
  (exists parsed, ServerTs.showParser x = Normal parsed) <->
  satisfies (open_shape ServerTs.toolInputSchema) x = true.
Proof.
  unfold ServerTs.showParser, z_string_optional, z_string, satisfies.
  cbn [open_shape ServerTs.toolInputSchema properties required
       additionalProperties forallb fst orb].
  destruct (get_property "message" x) as [[] |];
    destruct (get_property "accentColor" x) as [[] |];
    destruct (get_property "details" x) as [[] |];
    cbn; split; try discriminate;
    try (intros _; first [reflexivity | eexists; reflexivity]);
    intros [parsed H]; discriminate.
Qed.

Lemma refreshParser_throws (x : list (string * Json)) (e : Exn) :
  ServerTs.refreshParser x = Thrown e ->
  exists issues, e = ZodError issues /\ issues <> [].
Proof.
  unfold ServerTs.refreshParser, z_string.
  destruct (get_property "message" x) as [[] |];
    cbn; intros H; inversion H; eexists; (split; [reflexivity | discriminate]).
Qed.

Lemma refreshParser_required (x : list (string * Json)) :
  get_property "message" x = None ->
  ServerTs.refreshParser x = Thrown (ZodError [invalid_type ["message"] None]).
Proof. intros Hm. unfold ServerTs.refreshParser. now rewrite Hm. Qed.

Lemma refreshParser_shape (x : list (string * Json)) :
  (exists parsed, ServerTs.refreshParser x = Normal parsed) <->
  satisfies (open_shape ServerTs.refreshInputSchema) x = true.
Proof.
  unfold ServerTs.refreshParser, z_string, satisfies.
  cbn [open_shape ServerTs.refreshInputSchema properties required
       additionalProperties forallb fst orb].
  destruct (get_property "message" x) as [[] |];
    cbn; split; try discriminate; eauto; intros [parsed H]; discriminate.
Qed.

Lemma Dispatch_accepting
  (handler : CallToolRequest -> Completion CallToolResult)
  (request : CallToolRequest) (engine : Engine) :
  accepting engine = true ->
  written (Dispatch handler request engine) =
  (written engine ++
    [match handler request with
     | Normal result => SuccessResult result
     | Thrown error => FailureResult error
     end])%list.
Proof. intros H. unfold Dispatch. now rewrite H. Qed.

(** ** Where the listeners send a request *)

Lemma ServerTs_route (sdk : Sdk) (req : IncomingMessage)
  (reg : gmap string SessionRecord) (tr : list Effect) :
  let clean := replace_trailing_slash (pathname (url req)) in
  let tr1 :=
    (tr ++ [console_log ("📞 Incoming request: " ++ method req ++ " " ++ clean)])%list
  in
  ServerTs.httpServer sdk req (request_state reg tr) =
  if String.eqb (method req) "OPTIONS" then
    (Normal tt,
     {| sessions := reg; res := replied cors_all 204 ""; trace := tr1 |})
  else if String.eqb (method req) "GET"
          && String.eqb clean ServerTs.ssePath then
    ServerTs.handleSseRequest sdk
      (request_state reg
         (tr1 ++ [console_log "✅ SSE Connection established!"]))
  else if String.eqb (method req) "POST"
          && String.eqb clean ServerTs.postPath then
    ServerTs.handlePostMessage sdk (url req)
      (request_state reg
         (tr1 ++ [console_log "✅ Message received (endpoint)!"]))
  else if String.eqb (method req) "POST"
          && String.eqb clean ServerTs.ssePath then
    if searchParams_has "sessionId" (searchParams (url req)) then
      ServerTs.handlePostMessage sdk (url req)
        (request_state reg
           (tr1 ++ [console_log "✅ Message received (via base path)!"]))
    else
      (Normal tt,
       {| sessions := reg; res := replied [] 200 "OK";
          trace :=
            tr1 ++ [console_log "✅ Probe/Ping received -> Sending 200 OK"] |})
  else
    (Normal tt,
     {| sessions := reg; res := replied [] 404 "Not Found";
        trace := tr1 ++ [console_log ("❌ 404 Not Found: " ++ clean)] |}).
Proof.
  intros clean tr1. unfold ServerTs.httpServer. fold clean.
  destruct (String.eqb (method req) "OPTIONS"); [reflexivity |].
  destruct (String.eqb (method req) "GET" && String.eqb clean ServerTs.ssePath);
    [reflexivity |].
  destruct (String.eqb (method req) "POST"
            && String.eqb clean ServerTs.postPath); [reflexivity |].
  destruct (String.eqb (method req) "POST"
            && String.eqb clean ServerTs.ssePath); [| reflexivity].
  destruct (searchParams_has _ _); reflexivity.
Qed.

Lemma Legacy_route (sdk : Sdk) (req : IncomingMessage)
  (reg : gmap string SessionRecord) (tr : list Effect) :
  let clean := replace_trailing_slash (pathname (url req)) in
  let tr1 :=
    (tr ++ [console_log ("ðŸ“ž Incoming request: " ++ method req ++ " " ++ clean)])%list
  in
  let started (t : list Effect) :=
    {| sessions := reg;
       res := {| headers := cors_all; headersSent := false;
                 statusCode := 200; body := ""; writableEnded := false |};
       trace := t |} in
  Legacy.httpServer sdk req (request_state reg tr) =
  if String.eqb (method req) "OPTIONS" then
    (Normal tt,
     {| sessions := reg; res := replied cors_all 204 ""; trace := tr1 |})
  else if String.eqb clean "" || String.eqb clean "/" then
    (Normal tt,
     {| sessions := reg;
        res := replied cors_all 200 "Kitchen Sink MCP Server is online.";
        trace := tr1 |})
  else if String.eqb (method req) "GET"
          && String.eqb clean Legacy.ssePath then
    Legacy.handleSseRequest sdk
      (started (tr1 ++ [console_log "âœ… SSE Connect received (Legacy Mode)"])%list)
  else if String.eqb (method req) "POST"
          && String.eqb clean Legacy.postPath then
    Legacy.handlePostMessage sdk (url req)
      (started (tr1 ++ [console_log "âœ… Message received"])%list)
  else if String.eqb (method req) "POST"
          && String.eqb clean Legacy.ssePath then
    (Normal tt,
     {| sessions := reg; res := replied cors_all 405 "Use GET for SSE";
        trace := tr1 ++ [console_log "âš ï¸ Rejecting POST probe to force SSE fallback (This is GOOD!)"] |})
  else
    (Normal tt,
     {| sessions := reg; res := replied cors_all 404 "Not Found";
        trace := tr1 |}).
Proof.
  intros clean tr1 started. unfold Legacy.httpServer. fold clean.
  destruct (String.eqb (method req) "OPTIONS"); [reflexivity |].
  destruct (String.eqb clean "" || String.eqb clean "/"); [reflexivity |].
  destruct (String.eqb (method req) "GET" && String.eqb clean Legacy.ssePath);
    [reflexivity |].
  destruct (String.eqb (method req) "POST"
            && String.eqb clean Legacy.postPath); [reflexivity |].
  destruct (String.eqb (method req) "POST"
            && String.eqb clean Legacy.ssePath); reflexivity.
Qed.

Lemma GoldenMaster_route (sdk : Sdk) (req : IncomingMessage)
  (reg : gmap string SessionRecord) (tr : list Effect) :
  let clean := replace_trailing_slash (pathname (url req)) in
  let started :=
    {| sessions := reg;
       res := {| headers := cors_all; headersSent := false;
                 statusCode := 200; body := ""; writableEnded := false |};
       trace := tr |} in
  let answered (status : nat) (text : string) :=
    (Normal tt,
     {| sessions := reg; res := replied cors_all status text;
        trace := tr |}) in
  let messages_or_not_found :=
    if String.eqb clean GoldenMasterHttp.postPath
       && String.eqb (method req) "POST" then
      GoldenMaster.handlePostMessage sdk (url req) started
    else answered 404 "Not Found" in
  GoldenMasterHttp.httpServer sdk req (request_state reg tr) =
  if String.eqb (method req) "OPTIONS" then answered 204 ""
  else if (String.eqb clean "" || String.eqb clean "/")
          && String.eqb (method req) "GET" then
    answered 200 "MCP Server Online"
  else if String.eqb clean GoldenMasterHttp.ssePath then
    if String.eqb (method req) "GET" then
      GoldenMasterHttp.handleSseRequest sdk started
    else if String.eqb (method req) "POST" then answered 405 "Use GET"
    else messages_or_not_found
  else messages_or_not_found.
Proof.
  intros clean started answered rest. subst rest.
  unfold GoldenMasterHttp.httpServer. fold clean.
  destruct (String.eqb (method req) "OPTIONS"); [reflexivity |].
  destruct ((String.eqb clean "" || String.eqb clean "/")
            && String.eqb (method req) "GET"); [reflexivity |].
  destruct (String.eqb clean GoldenMasterHttp.ssePath).
  - destruct (String.eqb (method req) "GET"); [reflexivity |].
    destruct (String.eqb (method req) "POST"); [reflexivity |].
    destruct (String.eqb clean GoldenMasterHttp.postPath); reflexivity.
  - destruct (String.eqb clean GoldenMasterHttp.postPath
              && String.eqb (method req) "POST"); reflexivity.
Qed.

(** ** Classification on the cleaned path *)

Lemma ServerTs_classifies (sdk : Sdk) (m path : string)
  (q : list (string * string)) (reg : gmap string SessionRecord)
  (tr : list Effect) :
  ServerTs.httpServer sdk (with_path m path q) (request_state reg tr) =
  ServerTs_branch sdk m (replace_trailing_slash path) q reg tr.
Proof.
  rewrite ServerTs_route. reflexivity.
Qed.

Lemma Legacy_classifies (sdk : Sdk) (m path : string)
  (q : list (string * string)) (reg : gmap string SessionRecord)
  (tr : list Effect) :
  Legacy.httpServer sdk (with_path m path q) (request_state reg tr) =
  Legacy_branch sdk m (replace_trailing_slash path) q reg tr.
Proof.
  rewrite Legacy_route. reflexivity.
Qed.

Lemma ends_with_slash_added (p : string) : ends_with_slash (p ++ "/") = true.
Proof.
  induction p as [| c p IH]; [reflexivity |].
  change (String c p ++ "/") with (String c (p ++ "/")).
  destruct p as [| d p]; [reflexivity |].
  exact IH.
Qed.

Lemma ends_with_slash_differs (s t : string) :
  ends_with_slash s = true -> ends_with_slash t = false ->
  String.eqb s t = false.
Proof.
  intros Hs Ht. destruct (String.eqb_spec s t) as [-> | _]; [| reflexivity].
  congruence.
Qed.

(** ** Identifiers made by the SDK *)

Lemma remove_one_subseteq (sid x : string) (l : list string) :
  x ∈ ServerTsRun.remove_one sid l -> x ∈ l.
Proof.
  induction l as [| y l IH]; simpl; [trivial |].
  destruct (String.eqb y sid).
  - intros H. now apply elem_of_cons; right.
  - rewrite !elem_of_cons. intros [-> | H]; auto.
Qed.

Lemma generated_ids_fresh (arrivals : list Arrival) :
  forall issued live : list string,
    (forall x, x ∈ live -> x ∈ issued) ->
    ServerTsRun.fresh_transports live (with_generated_ids issued arrivals).
Proof.
  induction arrivals as [| a arrivals IH]; intros issued live Hsub;
    [exact I |].
  destruct a as [req connect post | sid ce];
    cbn [with_generated_ids ServerTsRun.fresh_transports
         ServerTsRun.open_after transport_sessionId connect_outcome].
  - split.
    + intros _ Hin. apply Hsub in Hin.
      exact (infinite_is_fresh issued Hin).
    + apply IH. destruct (ServerTsRun.opens_stream req); [| exact Hsub].
      destruct connect; intros x; rewrite ?elem_of_cons.
      * intros [-> | Hx]; auto.
      * intros Hx. right. now apply Hsub.
  - split; [exact I |]. apply IH. intros x Hx.
    apply Hsub. now apply remove_one_subseteq in Hx.
Qed.

Lemma with_generated_ids_app (a b : list Arrival) :
  forall issued : list string,
    with_generated_ids issued (a ++ b) =
    (with_generated_ids issued a
     ++ with_generated_ids (issued_after issued a) b)%list.
Proof.
  induction a as [| [req connect post | sid ce] a IH]; intros issued;
    [reflexivity | |];
    cbn [app with_generated_ids issued_after]; now rewrite IH.
Qed.

Lemma open_streams_issued (arrivals : list Arrival) :
  forall issued live : list string,
    (forall x, x ∈ live -> x ∈ issued) ->
    forall x,
      x ∈ fold_left ServerTsRun.open_after
            (with_generated_ids issued arrivals) live ->
      x ∈ issued_after issued arrivals.
Proof.
  induction arrivals as [| a arrivals IH]; intros issued live Hsub;
    [exact Hsub |].
  destruct a as [req connect post | sid ce];
    cbn [with_generated_ids issued_after fold_left ServerTsRun.open_after
         transport_sessionId connect_outcome].
  - apply IH. destruct (ServerTsRun.opens_stream req); [| exact Hsub].
    destruct connect; intros x; rewrite ?elem_of_cons.
    + intros [-> | Hx]; auto.
    + intros Hx. right. now apply Hsub.
  - apply IH. intros x Hx. apply Hsub. now apply remove_one_subseteq in Hx.
Qed.

(** * The specified properties *)

(** C1.  A submitted message whose [sessionId] parameter is present, non
    empty and not a key of the registry is answered 404 "Unknown session":
    the handler completes, the registry is what it was (no session is
    created) and nothing is added to the trace of calls (no transport, hence
    no protocol engine, is invoked).  The same holds for the identifier of a
    session whose close handler has just run. *)
Theorem unknown_session_rejected (sdk : Sdk) (url : URL) (sid : string) :
  searchParams_get "sessionId" (searchParams url) = Some sid ->
  sid <> "" ->
  (forall (reg : gmap string SessionRecord) (tr : list Effect),
      reg !! sid = None ->
      ServerTs.handlePostMessage sdk url (request_state reg tr) =
      (Normal tt,
       {| sessions := reg; res := replied cors_post 404 "Unknown session";
          trace := tr |}))
  /\ (forall (w : World) (close_error : option Exn),
         let w' := ServerTsRun.step w (StreamClosed sid close_error) in
         ServerTs.handlePostMessage sdk url
           (request_state (registry w') (log w')) =
         (Normal tt,
          {| sessions := registry w';
             res := replied cors_post 404 "Unknown session";
             trace := log w' |})).
Proof.
  intros Hq Hne. split.
  - intros reg tr Hno. exact (ServerTs_post_unknown sdk url reg tr sid Hq Hne Hno).
  - intros w ce w'. apply (ServerTs_post_unknown sdk url _ _ sid Hq Hne).
    subst w'. rewrite step_closed_registry. apply lookup_delete_eq.
Qed.

Lemma unknown_session_rejected_witness :
  ServerTs.handlePostMessage (sdk_ok "s1")
    (submit_to [("sessionId", "ghost")]) (request_state ∅ []) =
  (Normal tt,
   {| sessions := ∅; res := replied cors_post 404 "Unknown session";
      trace := [] |}).
Proof.
  apply (proj1 (unknown_session_rejected (sdk_ok "s1")
                  (submit_to [("sessionId", "ghost")]) "ghost"
                  eq_refl ltac:(discriminate))).
  reflexivity.
Defined.

(** C2, as stated, fails on the golden-master draft: a request without a
    [sessionId] parameter and a request for an unregistered identifier get
    the very same 404 "Session not found". *)
Lemma golden_master_missing_like_unknown :
  truthy (searchParams_get "sessionId" (searchParams (submit_to []))) = false
  /\ GoldenMaster.handlePostMessage (sdk_ok "s1") (submit_to [])
       (request_state ∅ []) =
     (Normal tt,
      {| sessions := ∅; res := replied [] 404 "Session not found";
         trace := [] |})
  /\ GoldenMaster.handlePostMessage (sdk_ok "s1")
       (submit_to [("sessionId", "ghost")]) (request_state ∅ []) =
     (Normal tt,
      {| sessions := ∅; res := replied [] 404 "Session not found";
         trace := [] |}).
Proof. repeat split; reflexivity. Qed.

(** C2, amended.  For a request whose [sessionId] parameter is missing or
    empty: server.ts answers 400 "Missing sessionId query parameter" and the
    legacy draft 400 "Missing sessionId", a response other than the 404 of
    an unregistered identifier; the golden-master draft answers the same
    404 "Session not found" it gives an unregistered identifier.  In the
    three drafts the registry and the trace of calls are unchanged. *)
Theorem missing_session_id_rejected (sdk : Sdk) (url : URL)
  (reg : gmap string SessionRecord) (tr : list Effect) :
  truthy (searchParams_get "sessionId" (searchParams url)) = false ->
  ServerTs.handlePostMessage sdk url (request_state reg tr) =
    (Normal tt,
     {| sessions := reg;
        res := replied cors_post 400 "Missing sessionId query parameter";
        trace := tr |})
  /\ replied cors_post 400 "Missing sessionId query parameter"
     <> replied cors_post 404 "Unknown session"
  /\ Legacy.handlePostMessage sdk url (request_state reg tr) =
     (Normal tt,
      {| sessions := reg; res := replied [] 400 "Missing sessionId";
         trace := tr |})
  /\ GoldenMaster.handlePostMessage sdk url (request_state reg tr) =
     (Normal tt,
      {| sessions := reg; res := replied [] 404 "Session not found";
         trace := tr |}).
Proof.
  intros Hq. repeat split.
  - now apply ServerTs_post_missing.
  - discriminate.
  - now apply Legacy_post_missing.
  - now apply GoldenMaster_post_missing.
Qed.

Lemma missing_session_id_rejected_witness :
  ServerTs.handlePostMessage (sdk_ok "s1") (submit_to [("sessionId", "")])
    (request_state ∅ []) =
  (Normal tt,
   {| sessions := ∅;
      res := replied cors_post 400 "Missing sessionId query parameter";
      trace := [] |}).
Proof.
  apply (proj1 (missing_session_id_rejected (sdk_ok "s1")
                  (submit_to [("sessionId", "")]) ∅ [] eq_refl)).
Defined.

(** C3.  Every transport gets its identifier from the SDK, which
    generates one that it has not handed out before ([new_sessionId]), and
    [handleSseRequest] registers the session under that identifier.  So
    along every run of requests and closes: no transport is given the
    identifier of a stream that is open; the streams that are open have
    pairwise different identifiers; the keys of the registry are exactly
    those identifiers, each leading to the record made for it; and one
    more stream-open whose [server.connect] resolves is registered under
    an identifier that no open stream has, all other entries staying as
    they are. *)
Theorem generated_identifiers_unique (arrivals : list Arrival) :
  let evs := with_generated_ids [] arrivals in
  let w := ServerTsRun.run initial evs in
  ServerTsRun.fresh_transports [] evs
  /\ NoDup (ServerTsRun.open_streams evs)
  /\ (forall sid : string,
         sid ∈ ServerTsRun.open_streams evs <-> is_Some (registry w !! sid))
  /\ (forall (sid : string) (r : SessionRecord),
         registry w !! sid = Some r -> r = opened sid /\ session_id r = sid)
  /\ forall (req : IncomingMessage) (head : option nat) (post : SdkOutcome),
       ServerTsRun.opens_stream req = true ->
       let sid := new_sessionId (issued_after [] arrivals) in
       let evs' :=
         with_generated_ids []
           (arrivals ++ [Arrives req (Resolves head) post]) in
       (sid ∉ ServerTsRun.open_streams evs)
       /\ registry w !! sid = None
       /\ ServerTsRun.open_streams evs' = sid :: ServerTsRun.open_streams evs
       /\ registry (ServerTsRun.run initial evs')
          = <[sid := opened sid]> (registry w).
Proof.
  intros evs w.
  assert (Hfresh : ServerTsRun.fresh_transports [] evs).
  { apply generated_ids_fresh. intros x Hx. now apply elem_of_nil in Hx. }
  destruct (registry_tracks_run evs [] initial registry_tracks_initial Hfresh)
    as (Hnd & Hdom & Hrec).
  split; [exact Hfresh |]. split; [exact Hnd |]. split; [exact Hdom |].
  split.
  - intros sid r Hr. apply Hrec in Hr. now subst r.
  - intros req head post Ho sid evs'.
    assert (Hout : sid ∉ ServerTsRun.open_streams evs).
    { intros Hin.
      apply (open_streams_issued arrivals [] []) in Hin.
      - exact (infinite_is_fresh _ Hin).
      - intros x Hx. now apply elem_of_nil in Hx. }
    assert (Hevs : evs' =
                   (evs ++ [Request
                              {| transport_sessionId := sid;
                                 connect_outcome := Resolves head;
                                 handlePostMessage_outcome := post |}
                              req])%list).
    { subst evs'. rewrite with_generated_ids_app. reflexivity. }
    split; [exact Hout |]. split.
    + destruct (registry w !! sid) eqn:E; [| reflexivity].
      exfalso. apply Hout, Hdom. eauto.
    + rewrite Hevs. unfold ServerTsRun.open_streams, ServerTsRun.run.
      rewrite !fold_left_app. cbn [fold_left]. split.
      * cbn [ServerTsRun.open_after connect_outcome transport_sessionId].
        now rewrite Ho.
      * rewrite step_request_registry.
        cbn [connect_outcome transport_sessionId]. now rewrite Ho.
Qed.

(** C4, as stated, fails twice.  On the golden-master draft
    [kitchen-sink-show] called without [message], against the declared
    shape, is not refused: the handler runs and returns a result.  On
    server.ts arguments that carry a property the declared shape forbids
    ([additionalProperties] is false) are not refused either: the handler
    returns the result it returns without that property. *)
Lemma handlers_run_outside_declared_shape :
  (get_property "message" [] = None
   /\ existsb (fun t => satisfies (inputSchema t) []) GoldenMaster.tools
      = false
   /\ GoldenMaster.CallTool sample_runtime (call "kitchen-sink-show" []) =
      Normal
        {| content :=
             [{| type := "text";
                 text := "Widget displayed: " ++ dquote ++ "undefined"
                         ++ dquote |}];
           structuredContent := None;
           _meta := None |})
  /\ (satisfies ServerTs.toolInputSchema
        [("message", JStr "hi"); ("mood", JStr "calm")] = false
      /\ ServerTs.CallTool sample_runtime
           (call "kitchen-sink-show"
              [("message", JStr "hi"); ("mood", JStr "calm")])
         = ServerTs.CallTool sample_runtime
             (call "kitchen-sink-show" [("message", JStr "hi")])
      /\ exists result,
           ServerTs.CallTool sample_runtime
             (call "kitchen-sink-show"
                [("message", JStr "hi"); ("mood", JStr "calm")])
           = Normal result).
Proof.
  repeat split; try reflexivity. eexists. reflexivity.
Qed.

(** C4, amended.  In server.ts a call of a registered tool first parses
    the arguments with the zod parser of the tool.  When [message] is
    absent the handler throws a [ZodError] with the issue "Required" at
    [message], and an accepting engine writes that failure on the stream;
    whatever it throws for a registered tool is a [ZodError] with at least
    one issue; a result is returned only when the parser accepted the
    arguments, and is built from the parsed fields alone.  The parser
    accepts exactly the arguments that have the declared shape apart from
    undeclared properties, which it drops.  The golden-master draft casts
    the arguments and, when [message] is absent from them, returns a
    result that shows "undefined". *)
Theorem arguments_parsed_before_use (rt : Runtime)
  (request : CallToolRequest) :
  In (name request) (map tool_name ServerTs.tools) ->
  let args := default [] (arguments request) in
  (get_property "message" args = None ->
   exists issues,
     ServerTs.CallTool rt request = Thrown (ZodError issues)
     /\ In (invalid_type ["message"] None) issues
     /\ forall engine : Engine,
          accepting engine = true ->
          written (Dispatch (ServerTs.CallTool rt) request engine) =
          (written engine ++ [FailureResult (ZodError issues)])%list)
  /\ (forall e : Exn,
         ServerTs.CallTool rt request = Thrown e ->
         exists issues, e = ZodError issues /\ issues <> [])
  /\ (forall result : CallToolResult,
         ServerTs.CallTool rt request = Normal result ->
         (name request = "kitchen-sink-show"
          /\ satisfies (open_shape ServerTs.toolInputSchema) args = true
          /\ exists parsed,
               ServerTs.showParser args = Normal parsed
               /\ result = ServerTs.show_result rt parsed)
         \/ (name request = "kitchen-sink-refresh"
             /\ satisfies (open_shape ServerTs.refreshInputSchema) args = true
             /\ exists parsed,
                  ServerTs.refreshParser args = Normal parsed
                  /\ result = ServerTs.refresh_result parsed))
  /\ (forall x : list (string * Json),
         get_property "message" x = None ->
         GoldenMaster.CallTool rt (call "kitchen-sink-show" x) =
         Normal
           {| content :=
                [{| type := "text";
                    text := "Widget displayed: " ++ dquote ++ "undefined"
                            ++ dquote |}];
              structuredContent := None;
              _meta := None |}).
Proof.
  intros Hn args. apply registered_names in Hn.
  assert (Hgm : forall x : list (string * Json),
             get_property "message" x = None ->
             GoldenMaster.CallTool rt (call "kitchen-sink-show" x) =
             Normal
               {| content :=
                    [{| type := "text";
                        text := "Widget displayed: " ++ dquote ++ "undefined"
                                ++ dquote |}];
                  structuredContent := None;
                  _meta := None |}).
  { intros x Hx. unfold GoldenMaster.CallTool, call.
    cbn [name arguments String.eqb Ascii.eqb Bool.eqb].
    now rewrite Hx. }
  destruct request as [n a]. cbn [name arguments] in *. subst args.
  destruct Hn as [-> | ->].
  - rewrite CallTool_show. repeat split.
    + intros Hm. destruct (showParser_required _ Hm) as (issues & Hp & Hi).
      exists issues. rewrite Hp. repeat split; try assumption.
      intros engine Hacc. rewrite Dispatch_accepting by assumption.
      now rewrite CallTool_show, Hp.
    + intros e. destruct (ServerTs.showParser (default [] a)) eqn:Hp;
        [discriminate |].
      intros [= <-]. now apply showParser_throws in Hp.
    + intros result.
      destruct (ServerTs.showParser (default [] a)) as [parsed |] eqn:Hp;
        [| discriminate].
      intros [= <-]. left. repeat split.
      * apply showParser_shape. eauto.
      * eauto.
    + exact Hgm.
  - rewrite CallTool_refresh. repeat split.
    + intros Hm. rewrite (refreshParser_required _ Hm).
      eexists. repeat split; [now left |].
      intros engine Hacc. rewrite Dispatch_accepting by assumption.
      now rewrite CallTool_refresh, (refreshParser_required _ Hm).
    + intros e. destruct (ServerTs.refreshParser (default [] a)) eqn:Hp;
        [discriminate |].
      intros [= <-]. now apply refreshParser_throws in Hp.
    + intros result.
      destruct (ServerTs.refreshParser (default [] a)) as [parsed |] eqn:Hp;
        [| discriminate].
      intros [= <-]. right. repeat split.
      * apply refreshParser_shape. eauto.
      * eauto.
    + exact Hgm.
Qed.

Lemma arguments_parsed_before_use_witness :
  exists issues,
    ServerTs.CallTool sample_runtime (call "kitchen-sink-show" []) =
    Thrown (ZodError issues)
    /\ In (invalid_type ["message"] None) issues
    /\ forall engine : Engine,
         accepting engine = true ->
         written (Dispatch (ServerTs.CallTool sample_runtime)
                    (call "kitchen-sink-show" []) engine) =
         (written engine ++ [FailureResult (ZodError issues)])%list.
Proof.
  apply (proj1 (arguments_parsed_before_use sample_runtime
                  (call "kitchen-sink-show" [])
                  (or_introl eq_refl))).
  reflexivity.
Defined.

(** C5.  For every operation name outside the registered set the handler
    of server.ts throws [Error "Unknown tool: <name>"] whatever the
    arguments, so it never returns a result for it; an accepting engine
    writes exactly that failure, and nothing else, on the stream of its
    session. *)
Theorem unknown_operation_fails (rt : Runtime) (request : CallToolRequest) :
  ~ In (name request) (map tool_name ServerTs.tools) ->
  ServerTs.CallTool rt request =
    Thrown (Error ("Unknown tool: " ++ name request))
  /\ forall engine : Engine,
       accepting engine = true ->
       Dispatch (ServerTs.CallTool rt) request engine =
       {| accepting := true;
          written :=
            written engine ++
            [FailureResult (Error ("Unknown tool: " ++ name request))] |}.
Proof.
  intros Hn. pose proof (CallTool_unknown rt request Hn) as Hc.
  split; [exact Hc |].
  intros engine Hacc. unfold Dispatch. now rewrite Hacc, Hc.
Qed.

Lemma unknown_operation_fails_witness :
  ServerTs.CallTool sample_runtime (call "launch" [("message", JStr "hi")]) =
  Thrown (Error "Unknown tool: launch").
Proof.
  apply (proj1 (unknown_operation_fails sample_runtime
                  (call "launch" [("message", JStr "hi")])
                  ltac:(simpl; intuition discriminate))).
Defined.

(** C6, as stated, fails when [server.connect] rejects after the status
    line has been sent: the handler writes no error response, the response
    keeps the status the SDK wrote and stays open. *)
Lemma late_handshake_failure_not_surfaced :
  connect_outcome (sdk_fails_late "s1")
  = Rejects (Some 200) (Error "stream write failed")
  /\ res (snd (ServerTs.handleSseRequest (sdk_fails_late "s1")
                 (request_state ∅ []))) =
     {| headers := [("Access-Control-Allow-Origin", "*")];
        headersSent := true; statusCode := 200; body := "";
        writableEnded := false |}.
Proof. split; reflexivity. Qed.

(** C6, amended.  When [server.connect] rejects, the handler completes
    with no entry left under the identifier of the transport, and with the
    registry it started from when that identifier was not a key of it; when
    the response head has not been sent by then, the opening connection is
    answered 500 "Failed to establish SSE connection"; when it has, nothing
    further is written on the response. *)
Theorem failed_handshake_leaves_no_entry (sdk : Sdk)
  (reg : gmap string SessionRecord) (tr : list Effect)
  (head : option nat) (error : Exn) :
  connect_outcome sdk = Rejects head error ->
  let sid := transport_sessionId sdk in
  let out := ServerTs.handleSseRequest sdk (request_state reg tr) in
  fst out = Normal tt
  /\ sessions (snd out) !! sid = None
  /\ (reg !! sid = None -> sessions (snd out) = reg)
  /\ (head = None ->
      res (snd out) =
      replied [("Access-Control-Allow-Origin", "*")] 500
        "Failed to establish SSE connection")
  /\ (forall status : nat,
         head = Some status ->
         res (snd out) =
         {| headers := [("Access-Control-Allow-Origin", "*")];
            headersSent := true; statusCode := status; body := "";
            writableEnded := false |}).
Proof.
  intros Hc sid out. subst out.
  destruct head as [status |].
  - rewrite (ServerTs_open_rejects_sent sdk reg tr status error Hc).
    cbn [fst snd sessions res]. rewrite delete_insert_eq.
    repeat split.
    + apply lookup_delete_eq.
    + apply delete_id.
    + discriminate.
    + now intros ? [= <-].
  - rewrite (ServerTs_open_rejects_unsent sdk reg tr error Hc).
    cbn [fst snd sessions res]. rewrite delete_insert_eq.
    repeat split.
    + apply lookup_delete_eq.
    + apply delete_id.
    + discriminate.
Qed.

Lemma failed_handshake_leaves_no_entry_witness :
  let out := ServerTs.handleSseRequest (sdk_fails_early "s3")
               (request_state ∅ []) in
  fst out = Normal tt
  /\ sessions (snd out) !! "s3" = None
  /\ ((∅ : gmap string SessionRecord) !! "s3" = None -> sessions (snd out) = ∅)
  /\ (@None nat = None ->
      res (snd out) =
      replied [("Access-Control-Allow-Origin", "*")] 500
        "Failed to establish SSE connection")
  /\ (forall status : nat,
         None = Some status ->
         res (snd out) =
         {| headers := [("Access-Control-Allow-Origin", "*")];
            headersSent := true; statusCode := status; body := "";
            writableEnded := false |}).
Proof.
  apply (failed_handshake_leaves_no_entry (sdk_fails_early "s3") ∅ []
           None (Error "already started")).
  reflexivity.
Defined.

(** C7, as stated, fails: the close handler awaits [server.close()]
    outside any [try], so the close of a stream that is already closed
    raises whenever that call rejects, as it does when the call runs into
    the close handler again until the stack is exhausted. *)
Lemma second_close_raises :
  let w1 :=
    ServerTsRun.run initial
      [Request (sdk_ok "s3") open_request; StreamClosed "s3" None] in
  registry w1 !! "s3" = None
  /\ fst (ServerTs.onclose "s3"
            (Some (RangeError "Maximum call stack size exceeded"))
            (request_state (registry w1) (log w1)))
     = Thrown (RangeError "Maximum call stack size exceeded").
Proof.
  split; [| reflexivity].
  unfold ServerTsRun.run. cbn [fold_left].
  rewrite step_closed_registry. apply lookup_delete_eq.
Qed.

(** C7, amended.  Running the close handler of a session twice: each run
    completes without raising when its [server.close()] resolves, and
    raises what [server.close()] rejects with otherwise; the first run
    deletes the entry of the session, the second finds nothing to delete
    ([sessions.delete] answers false) and leaves the registry as the first
    run left it; and after the first close, and after whatever closes and
    requests follow it that do not open a stream under that identifier
    again, a message submitted to the identifier is answered
    404 "Unknown session". *)
Theorem stream_teardown_idempotent (w : World) (sid : string)
  (c1 c2 : option Exn) :
  sid <> "" ->
  let w1 := ServerTsRun.step w (StreamClosed sid c1) in
  let w2 := ServerTsRun.step w1 (StreamClosed sid c2) in
  (forall (st : State) (c : option Exn),
      fst (ServerTs.onclose sid c st) =
      match c with None => Normal tt | Some error => Thrown error end)
  /\ registry w1 = delete sid (registry w)
  /\ fst (sessions_delete sid (request_state (registry w1) (log w1)))
     = Normal false
  /\ registry w2 = registry w1
  /\ forall (evs : list Event) (sdk : Sdk) (target : URL),
       never_reopened sid evs ->
       searchParams_get "sessionId" (searchParams target) = Some sid ->
       let w3 := ServerTsRun.run w1 evs in
       registry w3 !! sid = None
       /\ ServerTs.handlePostMessage sdk target
            (request_state (registry w3) (log w3)) =
          (Normal tt,
           {| sessions := registry w3;
              res := replied cors_post 404 "Unknown session";
              trace := log w3 |}).
Proof.
  intros Hne w1 w2.
  assert (H1 : registry w1 = delete sid (registry w))
    by apply step_closed_registry.
  assert (Hgone : registry w1 !! sid = None)
    by (rewrite H1; apply lookup_delete_eq).
  split; [| split; [exact H1 | split; [| split]]].
  - intros st c. now rewrite ServerTs_onclose.
  - unfold sessions_delete, request_state. cbn [fst sessions].
    rewrite Hgone. reflexivity.
  - subst w2. rewrite step_closed_registry. now apply delete_id.
  - intros evs sdk target Hev Hq w3.
    assert (H3 : registry w3 !! sid = None)
      by now apply closed_stays_unknown.
    split; [exact H3 |].
    exact (ServerTs_post_unknown sdk target _ _ sid Hq Hne H3).
Qed.

Lemma stream_teardown_idempotent_witness :
  let w := ServerTsRun.run initial [Request (sdk_ok "s3") open_request] in
  let w1 := ServerTsRun.step w (StreamClosed "s3" None) in
  let w2 := ServerTsRun.step w1 (StreamClosed "s3" None) in
  registry w !! "s3" = Some (opened "s3")
  /\ registry w1 !! "s3" = None
  /\ registry w2 = registry w1
  /\ ServerTs.handlePostMessage (sdk_ok "s4")
       (submit_to [("sessionId", "s3")])
       (request_state (registry w2) (log w2)) =
     (Normal tt,
      {| sessions := registry w2;
         res := replied cors_post 404 "Unknown session";
         trace := log w2 |}).
Proof.
  pose proof (stream_teardown_idempotent
                (ServerTsRun.run initial [Request (sdk_ok "s3") open_request])
                "s3" None None ltac:(discriminate))
    as (_ & H1 & _ & H2 & H3).
  split; [reflexivity |]. split; [rewrite H1; apply lookup_delete_eq |].
  split; [exact H2 |].
  apply (H3 [StreamClosed "s3" None] (sdk_ok "s4")
            (submit_to [("sessionId", "s3")])).
  - repeat constructor.
  - reflexivity.
Defined.

(** C8, as stated, fails on server.ts: a POST on the stream-open path
    without a [sessionId] parameter is answered 200 "OK". *)
Lemma server_ts_accepts_probe :
  searchParams_has "sessionId" [] = false
  /\ res (snd (ServerTs.httpServer (sdk_ok "s1") (with_path "POST" "/mcp" [])
                 (request_state ∅ []))) =
     replied [] 200 "OK".
Proof. split; reflexivity. Qed.

(** C8, amended.  A POST on the stream-open path is refused by the legacy
    draft with 405 "Use GET for SSE", whatever its query; server.ts answers
    it 200 "OK" when it carries no [sessionId] parameter.  Neither touches
    the registry. *)
Theorem probe_on_stream_path (sdk : Sdk) (p : string)
  (q : list (string * string)) (reg : gmap string SessionRecord)
  (tr : list Effect) :
  replace_trailing_slash p = "/mcp" ->
  (exists lines,
      Legacy.httpServer sdk (with_path "POST" p q) (request_state reg tr) =
      (Normal tt,
       {| sessions := reg; res := replied cors_all 405 "Use GET for SSE";
          trace := tr ++ map console_log lines |}))
  /\ (searchParams_has "sessionId" q = false ->
      exists lines,
        ServerTs.httpServer sdk (with_path "POST" p q) (request_state reg tr) =
        (Normal tt,
         {| sessions := reg; res := replied [] 200 "OK";
            trace := tr ++ map console_log lines |})).
Proof.
  intros Hp. split.
  - now apply Legacy_probe.
  - intros Hq. eexists [_; _].
    exact (ServerTs_probe sdk q reg tr p Hp Hq).
Qed.

Lemma probe_on_stream_path_witness :
  exists lines,
    Legacy.httpServer (sdk_ok "s1") (with_path "POST" "/mcp/" [])
      (request_state ∅ []) =
    (Normal tt,
     {| sessions := ∅; res := replied cors_all 405 "Use GET for SSE";
        trace := [] ++ map console_log lines |}).
Proof.
  apply (proj1 (probe_on_stream_path (sdk_ok "s1") "/mcp/" [] ∅ [] eq_refl)).
Defined.

(** C9, as stated, fails on server.ts, which has no health route and
    answers a GET on the root path 404 "Not Found"; and in the legacy draft
    a pre-flight request on the root path gets the empty 204 of every
    pre-flight request, not the liveness text. *)
Lemma root_path_without_liveness_text :
  replace_trailing_slash "/" = ""
  /\ res (snd (ServerTs.httpServer (sdk_ok "s1") (with_path "GET" "/" [])
                 (request_state ∅ []))) =
     replied [] 404 "Not Found"
  /\ res (snd (Legacy.httpServer (sdk_ok "s1") (with_path "OPTIONS" "/" [])
                 (request_state ∅ []))) =
     replied cors_all 204 "".
Proof. repeat split; reflexivity. Qed.

(** C9, amended.  In the legacy draft every request on the root path that
    is not a pre-flight request is answered 200 with the fixed text
    "Kitchen Sink MCP Server is online.", whatever the registry holds, and
    the registry is left as it was; server.ts has no health route and
    answers such a request 404 "Not Found". *)
Theorem root_path_liveness (sdk : Sdk) (m p : string)
  (q : list (string * string)) (reg : gmap string SessionRecord)
  (tr : list Effect) :
  m <> "OPTIONS" ->
  replace_trailing_slash p = "" \/ replace_trailing_slash p = "/" ->
  (exists lines,
      Legacy.httpServer sdk (with_path m p q) (request_state reg tr) =
      (Normal tt,
       {| sessions := reg;
          res := replied cors_all 200 "Kitchen Sink MCP Server is online.";
          trace := tr ++ map console_log lines |}))
  /\ (exists lines,
         ServerTs.httpServer sdk (with_path m p q) (request_state reg tr) =
         (Normal tt,
          {| sessions := reg; res := replied [] 404 "Not Found";
             trace := tr ++ map console_log lines |})).
Proof.
  intros Hm Hp. split.
  - now apply Legacy_health.
  - now apply ServerTs_root.
Qed.

Lemma root_path_liveness_witness :
  exists lines,
    Legacy.httpServer (sdk_ok "s1") (with_path "GET" "/" [])
      (request_state (<["s1" := opened "s1"]> ∅) []) =
    (Normal tt,
     {| sessions := <["s1" := opened "s1"]> ∅;
        res := replied cors_all 200 "Kitchen Sink MCP Server is online.";
        trace := [] ++ map console_log lines |}).
Proof.
  apply (proj1 (root_path_liveness (sdk_ok "s1") "GET" "/" []
                  (<["s1" := opened "s1"]> ∅) []
                  ltac:(discriminate) (or_introl eq_refl))).
Defined.

(** C10.  The listener compares the path after removing one trailing
    slash from it, and no more.  What it does with a request depends on the
    path only through that cleaned path: it is the branch of the cleaned
    path, in server.ts and in the legacy draft.  So a path to which one
    slash is added is handled exactly as the path itself, with the same
    completion, registry, response and trace; a GET on "/mcp/" opens a
    stream as a GET on "/mcp" does; and a path that ends in two slashes
    keeps one of them and is not taken for the path without any: apart
    from the pre-flight it is answered 404 "Not Found" (in the legacy
    draft "//" is cleaned to the root path "/", every other such path is
    answered 404). *)
Theorem trailing_slash_routing (sdk : Sdk) (m p : string)
  (q : list (string * string)) (reg : gmap string SessionRecord)
  (tr : list Effect) :
  ends_with_slash p = false ->
  let serverTs (path : string) :=
    ServerTs.httpServer sdk (with_path m path q) (request_state reg tr) in
  let legacy (path : string) :=
    Legacy.httpServer sdk (with_path m path q) (request_state reg tr) in
  let not_found (hs : list (string * string))
        (out : Completion unit * State) :=
    fst out = Normal tt /\ sessions (snd out) = reg
    /\ res (snd out) = replied hs 404 "Not Found" in
  (forall path : string,
      serverTs path
      = ServerTs_branch sdk m (replace_trailing_slash path) q reg tr)
  /\ (forall path : string,
         legacy path
         = Legacy_branch sdk m (replace_trailing_slash path) q reg tr)
  /\ replace_trailing_slash (p ++ "/") = p
  /\ replace_trailing_slash p = p
  /\ (forall path : string,
         replace_trailing_slash ((path ++ "/") ++ "/") = path ++ "/")
  /\ (forall st : State,
         ServerTs.httpServer sdk (with_path m (p ++ "/") q) st =
         ServerTs.httpServer sdk (with_path m p q) st)
  /\ (forall st : State,
         Legacy.httpServer sdk (with_path m (p ++ "/") q) st =
         Legacy.httpServer sdk (with_path m p q) st)
  /\ ServerTs.httpServer sdk (with_path "GET" "/mcp/" q)
       (request_state reg tr) =
     ServerTs.handleSseRequest sdk
       (request_state reg
          ((tr ++ [console_log "📞 Incoming request: GET /mcp"])
           ++ [console_log "✅ SSE Connection established!"])%list)
  /\ (forall path : string,
         m <> "OPTIONS" -> not_found [] (serverTs ((path ++ "/") ++ "/")))
  /\ (forall path : string,
         m <> "OPTIONS" -> path <> "" ->
         not_found cors_all (legacy ((path ++ "/") ++ "/")))
  /\ forall s : string,
       replace_trailing_slash s = s \/ s = replace_trailing_slash s ++ "/".
Proof.
  intros Hp serverTs legacy not_found.
  assert (Hm : forall t : string,
             String.eqb ((t ++ "/")) "/mcp" = false
             /\ String.eqb ((t ++ "/")) "/mcp/messages" = false).
  { intros t.
    split; apply ends_with_slash_differs;
      first [apply ends_with_slash_added | reflexivity]. }
  split; [intros path; apply ServerTs_classifies |].
  split; [intros path; apply Legacy_classifies |].
  split; [apply replace_trailing_slash_added |].
  split; [now apply replace_trailing_slash_none |].
  split; [intros path; apply replace_trailing_slash_added |].
  split; [intros st; now apply ServerTs_listener_slash |].
  split; [intros st; now apply Legacy_listener_slash |].
  split; [rewrite ServerTs_route; reflexivity |].
  split; [| split; [| apply replace_trailing_slash_one]].
  - intros path Ho. apply String.eqb_neq in Ho.
    subst serverTs not_found. cbv beta.
    rewrite ServerTs_classifies, replace_trailing_slash_added.
    unfold ServerTs_branch. destruct (Hm path) as [H1 H2].
    rewrite Ho, H1, H2, !andb_false_r. repeat split.
  - intros path Ho Hne. apply String.eqb_neq in Ho.
    subst legacy not_found. cbv beta.
    rewrite Legacy_classifies, replace_trailing_slash_added.
    unfold Legacy_branch. destruct (Hm path) as [H1 H2].
    assert (H3 : String.eqb (path ++ "/") "" = false)
      by (destruct path; reflexivity).
    assert (H4 : String.eqb (path ++ "/") "/" = false).
    { destruct path as [| c path]; [contradiction |].
      change (String c path ++ "/") with (String c (path ++ "/")).
      cbn [String.eqb]. destruct (Ascii.eqb c "/"); [| reflexivity].
      destruct path; reflexivity. }
    rewrite Ho, H1, H2, H3, H4, !andb_false_r. repeat split.
Qed.

Lemma trailing_slash_routing_witness :
  ServerTs.httpServer (sdk_ok "s1") (with_path "GET" ("/mcp" ++ "/") [])
    (request_state ∅ []) =
  ServerTs.httpServer (sdk_ok "s1") (with_path "GET" "/mcp" [])
    (request_state ∅ [])
  /\ res (snd (ServerTs.httpServer (sdk_ok "s1")
                 (with_path "GET" (("/mcp" ++ "/") ++ "/") [])
                 (request_state ∅ [])))
     = replied [] 404 "Not Found"
  /\ ServerTs.httpServer (sdk_ok "s1") (with_path "GET" "/mcp//" [])
       (request_state ∅ [])
     = ServerTs_branch (sdk_ok "s1") "GET" "/mcp/" [] ∅ [].
Proof.
  pose proof (trailing_slash_routing (sdk_ok "s1") "GET" "/mcp" [] ∅ []
                eq_refl)
    as (Hb & _ & _ & _ & _ & Hs & _ & _ & Hd & _).
  assert (Hget : "GET" <> "OPTIONS") by discriminate.
  split; [exact (Hs (request_state ∅ [])) |].
  split; [exact (proj2 (proj2 (Hd "/mcp" Hget))) |].
  exact (Hb "/mcp//").
Defined.

(** * Further properties of the drafts *)

(** ** Completion of the handlers *)

Ltac settle H := repeat (progress (simpl; rewrite ?H)); reflexivity.

Lemma ServerTs_open_total (sdk : Sdk) (st : State) :
  headersSent (res st) = false ->
  fst (ServerTs.handleSseRequest sdk st) = Normal tt.
Proof.
  intros Hs. unfold ServerTs.handleSseRequest.
  destruct (connect_outcome sdk) as [[s|] | [s|] e]; js; rewrite Hs;
    reflexivity.
Qed.

Lemma ServerTs_post_total (sdk : Sdk) (target : URL) (st : State) :
  headersSent (res st) = false ->
  fst (ServerTs.handlePostMessage sdk target st) = Normal tt.
Proof.
  intros Hs. unfold ServerTs.handlePostMessage.
  destruct (handlePostMessage_outcome sdk) as [[s|] | [s|] e]; js;
    rewrite Hs; simpl;
    (destruct (truthy _); simpl; [| reflexivity]);
    (destruct (sessions st !! _); reflexivity).
Qed.

Lemma Legacy_open_total (sdk : Sdk) (st : State) :
  fst (Legacy.handleSseRequest sdk st) = Normal tt.
Proof.
  unfold Legacy.handleSseRequest.
  destruct (connect_outcome sdk) as [[s|] | [s|] e]; js; try reflexivity.
  destruct (headersSent (res st)) eqn:Hs; settle Hs.
Qed.

Lemma Legacy_post_total (sdk : Sdk) (target : URL) (st : State) :
  headersSent (res st) = false ->
  fst (Legacy.handlePostMessage sdk target st) = Normal tt.
Proof.
  intros Hs. unfold Legacy.handlePostMessage.
  destruct (handlePostMessage_outcome sdk) as [[s|] | [s|] e]; js;
    (destruct (truthy _); simpl; [| now rewrite Hs]);
    (destruct (sessions st !! _); settle Hs).
Qed.

Lemma GoldenMaster_open_total (sdk : Sdk) (st : State) :
  fst (GoldenMasterHttp.handleSseRequest sdk st) = Normal tt.
Proof.
  unfold GoldenMasterHttp.handleSseRequest.
  destruct (connect_outcome sdk) as [[s|] | [s|] e]; reflexivity.
Qed.

Lemma GoldenMaster_post_total (sdk : Sdk) (target : URL) (st : State) :
  headersSent (res st) = false ->
  fst (GoldenMaster.handlePostMessage sdk target st) = Normal tt.
Proof.
  intros Hs. unfold GoldenMaster.handlePostMessage.
  set (sid := searchParams_get "sessionId" (searchParams target)).
  destruct (handlePostMessage_outcome sdk) as [[s|] | [s|] e]; js;
    destruct (sessions st !! default "" sid) eqn:E;
    destruct (truthy sid);
    repeat (progress (simpl; rewrite ?Hs, ?E)); reflexivity.
Qed.

(** ** What the message routers leave alone *)

Lemma Legacy_post_registry (sdk : Sdk) (target : URL) (st : State) :
  sessions (snd (Legacy.handlePostMessage sdk target st)) = sessions st.
Proof.
  unfold Legacy.handlePostMessage.
  destruct (handlePostMessage_outcome sdk) as [[s|] | [s|] e]; js;
    (destruct (truthy _); simpl;
     [| destruct (headersSent (res st)); reflexivity]);
    (destruct (sessions st !! _); simpl; try reflexivity);
    destruct (headersSent (res st)) eqn:Hs; settle Hs.
Qed.

Lemma GoldenMaster_post_registry (sdk : Sdk) (target : URL) (st : State) :
  sessions (snd (GoldenMaster.handlePostMessage sdk target st)) = sessions st.
Proof.
  unfold GoldenMaster.handlePostMessage.
  set (sid := searchParams_get "sessionId" (searchParams target)).
  destruct (handlePostMessage_outcome sdk) as [[s|] | [s|] e]; js;
    destruct (sessions st !! default "" sid) eqn:E;
    destruct (truthy sid); destruct (headersSent (res st)) eqn:Hs;
    repeat (progress (simpl; rewrite ?Hs, ?E)); reflexivity.
Qed.

Lemma Legacy_open_registry (sdk : Sdk) (st : State) :
  sessions (snd (Legacy.handleSseRequest sdk st)) =
  match connect_outcome sdk with
  | Resolves _ =>
      <[transport_sessionId sdk := opened (transport_sessionId sdk)]>
        (sessions st)
  | Rejects _ _ => delete (transport_sessionId sdk) (sessions st)
  end.
Proof.
  unfold Legacy.handleSseRequest.
  destruct (connect_outcome sdk) as [[s|] | [s|] e]; js; try reflexivity;
    try (destruct (headersSent (res st)) eqn:Hs;
         repeat (progress (simpl; rewrite ?Hs)));
    apply delete_insert_eq.
Qed.

Lemma GoldenMaster_open_registry (sdk : Sdk) (st : State) :
  sessions (snd (GoldenMasterHttp.handleSseRequest sdk st)) =
  match connect_outcome sdk with
  | Resolves _ =>
      <[transport_sessionId sdk := opened (transport_sessionId sdk)]>
        (sessions st)
  | Rejects _ _ => delete (transport_sessionId sdk) (sessions st)
  end.
Proof.
  unfold GoldenMasterHttp.handleSseRequest.
  destruct (connect_outcome sdk) as [[s|] | [s|] e]; js; try reflexivity;
    apply delete_insert_eq.
Qed.

(** ** The listeners as a whole *)

Lemma listeners_complete (sdk : Sdk) (req : IncomingMessage)
  (reg : gmap string SessionRecord) (tr : list Effect) :
  fst (ServerTs.httpServer sdk req (request_state reg tr)) = Normal tt
  /\ fst (Legacy.httpServer sdk req (request_state reg tr)) = Normal tt
  /\ fst (GoldenMasterHttp.httpServer sdk req (request_state reg tr))
     = Normal tt.
Proof.
  split; [| split].
  - rewrite ServerTs_route.
    repeat (match goal with
            | |- context [if ?b then _ else _] => destruct b
            end; try reflexivity);
      first [now apply ServerTs_open_total | now apply ServerTs_post_total].
  - rewrite Legacy_route.
    repeat (match goal with
            | |- context [if ?b then _ else _] => destruct b
            end; try reflexivity);
      first [now apply Legacy_open_total | now apply Legacy_post_total].
  - rewrite GoldenMaster_route.
    repeat (match goal with
            | |- context [if ?b then _ else _] => destruct b
            end; try reflexivity);
      first [now apply GoldenMaster_open_total
            | now apply GoldenMaster_post_total].
Qed.

(** X1.  A listener throws only where its first statement does: when
    [new URL] refuses the request target or the [Host] header, the
    listener of server.ts, of the legacy draft and of the golden-master
    draft throws that [TypeError] before it has logged, written or
    registered anything; for every other request, every registry and
    whatever the SDK does (resolve or reject, before or after writing the
    response head), it completes normally.  The base of the URL is built
    from the [Host] header, or from "localhost" when the header is absent
    (in the golden-master draft also when it is empty). *)
Theorem listeners_throw_only_on_bad_url
  (new_URL : string -> string -> option URL) (sdk : Sdk)
  (req : ClientRequest) (reg : gmap string SessionRecord)
  (tr : list Effect) :
  let outcome (host : string) (listener : M unit) :=
    match new_URL (default "" (req_url req)) ("http://" ++ host) with
    | None =>
        listener (request_state reg tr)
        = (Thrown (TypeError "Invalid URL"), request_state reg tr)
    | Some _ => fst (listener (request_state reg tr)) = Normal tt
    end in
  outcome (default "localhost" (headers_host req))
    (ServerTs_listener new_URL sdk req)
  /\ outcome (default "localhost" (headers_host req))
       (Legacy_listener new_URL sdk req)
  /\ outcome (match headers_host req with
              | Some "" | None => "localhost"
              | Some host => host
              end)
       (GoldenMaster_listener new_URL sdk req).
Proof.
  intros outcome. subst outcome. cbv beta.
  assert (Hf : falsy_or (headers_host req) "localhost"
               = match headers_host req with
                 | Some "" | None => "localhost"
                 | Some host => host
                 end).
  { unfold falsy_or. destruct (headers_host req) as [[| c h] |]; reflexivity. }
  unfold ServerTs_listener, Legacy_listener, GoldenMaster_listener,
    requestListener, nullish_or.
  rewrite Hf.
  repeat split;
    match goal with
    | |- context [new_URL ?a ?b] => destruct (new_URL a b) as [u |]
    end; try reflexivity;
    apply (listeners_complete sdk {| method := req_method req; url := u |}).
Qed.

(** X2.  A pre-flight request is answered the same on every path, with
    every query and registry: status 204, no body, the three CORS headers;
    the registry is left as it was and nothing but console output is added
    to the trace, in the three drafts. *)
Theorem preflight_any_path (sdk : Sdk) (p : string)
  (q : list (string * string)) (reg : gmap string SessionRecord)
  (tr : list Effect) :
  let answer (out : Completion unit * State) :=
    fst out = Normal tt
    /\ sessions (snd out) = reg
    /\ res (snd out) = replied cors_all 204 ""
    /\ exists lines, trace (snd out) = (tr ++ map console_log lines)%list in
  answer (ServerTs.httpServer sdk (with_path "OPTIONS" p q)
            (request_state reg tr))
  /\ answer (Legacy.httpServer sdk (with_path "OPTIONS" p q)
               (request_state reg tr))
  /\ answer (GoldenMasterHttp.httpServer sdk (with_path "OPTIONS" p q)
               (request_state reg tr)).
Proof.
  intros answer. subst answer. cbv beta. split; [| split].
  - rewrite ServerTs_route. cbn [with_path method String.eqb Ascii.eqb
      Bool.eqb fst snd sessions res trace].
    repeat split. now eexists [_].
  - rewrite Legacy_route. cbn [with_path method String.eqb Ascii.eqb
      Bool.eqb fst snd sessions res trace].
    repeat split. now eexists [_].
  - rewrite GoldenMaster_route. cbn [with_path method String.eqb Ascii.eqb
      Bool.eqb fst snd sessions res trace].
    repeat split. exists []. now rewrite app_nil_r.
Qed.

(** X3.  Only opening a stream changes the registry: a request that is
    not a GET on the stream-open path leaves the registry exactly as it
    was, in the three drafts and whatever the SDK does. *)
Theorem registry_changes_only_on_open (sdk : Sdk) (req : IncomingMessage)
  (reg : gmap string SessionRecord) (tr : list Effect) :
  ServerTsRun.opens_stream req = false ->
  sessions (snd (ServerTs.httpServer sdk req (request_state reg tr))) = reg
  /\ sessions (snd (Legacy.httpServer sdk req (request_state reg tr))) = reg
  /\ sessions (snd (GoldenMasterHttp.httpServer sdk req
                      (request_state reg tr))) = reg.
Proof.
  intros Hno. split; [| split].
  - rewrite ServerTs_listener_registry. now rewrite Hno.
  - rewrite Legacy_route. unfold ServerTsRun.opens_stream in Hno.
    change ServerTs.ssePath with Legacy.ssePath in Hno.
    destruct (String.eqb (method req) "OPTIONS"); [reflexivity |].
    cbn [negb andb] in Hno. rewrite Hno.
    repeat (match goal with
            | |- context [if ?b then _ else _] => destruct b
            end; try reflexivity).
    apply Legacy_post_registry.
  - rewrite GoldenMaster_route. unfold ServerTsRun.opens_stream in Hno.
    change ServerTs.ssePath with GoldenMasterHttp.ssePath in Hno.
    destruct (String.eqb (method req) "OPTIONS"); [reflexivity |].
    cbn [negb andb] in Hno.
    destruct (String.eqb (method req) "GET") eqn:Eg;
      destruct (String.eqb _ GoldenMasterHttp.ssePath) eqn:Es;
      try discriminate Hno;
      repeat (match goal with
              | |- context [if ?b then _ else _] => destruct b
              end; try reflexivity);
      apply GoldenMaster_post_registry.
Qed.

Lemma registry_changes_only_on_open_witness :
  sessions (snd (ServerTs.httpServer (sdk_ok "s9")
                   (with_path "POST" "/mcp/messages" [("sessionId", "s1")])
                   (request_state (<["s1" := opened "s1"]> ∅) [])))
  = <["s1" := opened "s1"]> ∅.
Proof.
  apply (proj1 (registry_changes_only_on_open (sdk_ok "s9")
                  (with_path "POST" "/mcp/messages" [("sessionId", "s1")])
                  (<["s1" := opened "s1"]> ∅) [] eq_refl)).
Defined.

(** X4.  server.ts answers everything it has no branch for with
    404 "Not Found", without any CORS header: every method other than
    OPTIONS, GET and POST on every path, a GET anywhere but on the
    stream-open path, a POST anywhere but on the two paths it serves.  The
    registry is untouched and no SDK call is made. *)
Theorem server_ts_not_found (sdk : Sdk) (m p : string)
  (q : list (string * string)) (reg : gmap string SessionRecord)
  (tr : list Effect) :
  m <> "OPTIONS" ->
  m <> "GET" \/ replace_trailing_slash p <> "/mcp" ->
  m <> "POST"
  \/ (replace_trailing_slash p <> "/mcp/messages"
      /\ replace_trailing_slash p <> "/mcp") ->
  let out := ServerTs.httpServer sdk (with_path m p q) (request_state reg tr)
  in
  fst out = Normal tt
  /\ sessions (snd out) = reg
  /\ res (snd out) = replied [] 404 "Not Found"
  /\ exists lines, trace (snd out) = (tr ++ map console_log lines)%list.
Proof.
  intros Ho Hg Hp out. subst out. rewrite ServerTs_route.
  cbn [with_path method url pathname searchParams].
  unfold ServerTs.ssePath, ServerTs.postPath.
  destruct (String.eqb_spec m "OPTIONS") as [E | _]; [contradiction |].
  destruct (String.eqb_spec m "GET") as [Eg | Eg];
    destruct (String.eqb_spec m "POST") as [Ep | Ep];
    [exfalso; rewrite Eg in Ep; discriminate Ep | ..];
    destruct (String.eqb_spec (replace_trailing_slash p) "/mcp") as [Es | Es];
    destruct (String.eqb_spec (replace_trailing_slash p) "/mcp/messages")
      as [Em | Em];
    try (exfalso; tauto);
    try (exfalso; rewrite Es in Em; discriminate Em);
    cbn [andb fst snd sessions res trace];
    (split; [reflexivity |]); (split; [reflexivity |]);
    (split; [reflexivity |]); eexists [_; _]; now rewrite <- app_assoc.
Qed.

Lemma server_ts_not_found_witness :
  res (snd (ServerTs.httpServer (sdk_ok "s1")
              (with_path "DELETE" "/mcp" [("sessionId", "s1")])
              (request_state (<["s1" := opened "s1"]> ∅) [])))
  = replied [] 404 "Not Found".
Proof.
  assert (Hg : "DELETE" <> "GET" \/ replace_trailing_slash "/mcp" <> "/mcp")
    by (left; discriminate).
  assert (Hp : "DELETE" <> "POST"
               \/ (replace_trailing_slash "/mcp" <> "/mcp/messages"
                   /\ replace_trailing_slash "/mcp" <> "/mcp"))
    by (left; discriminate).
  pose proof (server_ts_not_found (sdk_ok "s1") "DELETE" "/mcp"
                [("sessionId", "s1")] (<["s1" := opened "s1"]> ∅) []
                ltac:(discriminate) Hg Hp) as (_ & _ & H & _).
  exact H.
Defined.

(** ** Forwarding a message *)

Lemma ServerTs_post_regardless_of_trace (sdk : Sdk) (u1 u2 : URL)
  (reg : gmap string SessionRecord) (r : ServerResponse)
  (t1 t2 : list Effect) :
  searchParams u1 = searchParams u2 ->
  let a := ServerTs.handlePostMessage sdk u1
             {| sessions := reg; res := r; trace := t1 |} in
  let b := ServerTs.handlePostMessage sdk u2
             {| sessions := reg; res := r; trace := t2 |} in
  fst a = fst b /\ sessions (snd a) = sessions (snd b)
  /\ res (snd a) = res (snd b).
Proof.
  intros Hq. unfold ServerTs.handlePostMessage. rewrite Hq.
  destruct (handlePostMessage_outcome sdk) as [[s|] | [s|] e]; js;
    (destruct (headersSent r); simpl; [now repeat split |]);
    (destruct (truthy _); simpl; [| now repeat split]);
    (destruct (reg !! _); now repeat split).
Qed.

(** X5.  In server.ts a POST on the stream-open path that carries a
    [sessionId] parameter is a message submission: it completes with the
    same registry and the same response as the same request on the
    message path. *)
Theorem base_path_accepts_messages (sdk : Sdk) (p : string)
  (q : list (string * string)) (reg : gmap string SessionRecord)
  (tr : list Effect) :
  replace_trailing_slash p = "/mcp" ->
  searchParams_has "sessionId" q = true ->
  let a := ServerTs.httpServer sdk (with_path "POST" p q)
             (request_state reg tr) in
  let b := ServerTs.httpServer sdk (with_path "POST" "/mcp/messages" q)
             (request_state reg tr) in
  fst a = fst b /\ sessions (snd a) = sessions (snd b)
  /\ res (snd a) = res (snd b).
Proof.
  intros Hp Hq a b. subst a b. rewrite !ServerTs_route.
  cbn [with_path method url pathname searchParams]. rewrite Hp, Hq.
  cbn -[ServerTs.handlePostMessage].
  now apply ServerTs_post_regardless_of_trace.
Qed.

Lemma base_path_accepts_messages_witness :
  res (snd (ServerTs.httpServer (sdk_ok "s9")
              (with_path "POST" "/mcp" [("sessionId", "ghost")])
              (request_state ∅ [])))
  = res (snd (ServerTs.httpServer (sdk_ok "s9")
                (with_path "POST" "/mcp/messages" [("sessionId", "ghost")])
                (request_state ∅ []))).
Proof.
  pose proof (base_path_accepts_messages (sdk_ok "s9") "/mcp"
                [("sessionId", "ghost")] ∅ [] eq_refl eq_refl)
    as (_ & _ & H).
  exact H.
Defined.

Section Forwarding.
Variables (sdk : Sdk) (target : URL) (sid : string) (r : SessionRecord).
Variables (reg : gmap string SessionRecord) (tr : list Effect).
Hypothesis Hq : searchParams_get "sessionId" (searchParams target) = Some sid.
Hypothesis Hne : sid <> "".
Hypothesis Hreg : reg !! sid = Some r.

Lemma ServerTs_post_forward :
  ServerTs.handlePostMessage sdk target (request_state reg tr) =
  (Normal tt,
   {| sessions := reg;
      res := match handlePostMessage_outcome sdk with
             | Resolves head | Rejects (Some _ as head) _ =>
                 left_by_sdk cors_post head
             | Rejects None _ =>
                 replied cors_post 500 "Failed to process message"
             end;
      trace := tr ++ [transport_handlePostMessage (session_id r)]
               ++ match handlePostMessage_outcome sdk with
                  | Resolves _ => []
                  | Rejects _ error =>
                      [console_error "Failed to process message" error]
                  end |}).
Proof.
  unfold ServerTs.handlePostMessage. rewrite Hq, (truthy_Some _ Hne).
  destruct (handlePostMessage_outcome sdk) as [[s|] | [s|] e]; js;
    rewrite Hreg; simpl; rewrite <- ?app_assoc; reflexivity.
Qed.

Lemma Legacy_post_forward :
  Legacy.handlePostMessage sdk target (request_state reg tr) =
  (Normal tt,
   {| sessions := reg;
      res := match handlePostMessage_outcome sdk with
             | Resolves head | Rejects (Some _ as head) _ =>
                 left_by_sdk [] head
             | Rejects None _ => replied [] 500 "Message Error"
             end;
      trace := tr ++ [transport_handlePostMessage (session_id r)]
               ++ match handlePostMessage_outcome sdk with
                  | Resolves _ => []
                  | Rejects _ error =>
                      [console_error "Failed to process message" error]
                  end |}).
Proof.
  unfold Legacy.handlePostMessage. rewrite Hq, (truthy_Some _ Hne).
  destruct (handlePostMessage_outcome sdk) as [[s|] | [s|] e]; js;
    rewrite Hreg; simpl; rewrite <- ?app_assoc; reflexivity.
Qed.

Lemma GoldenMaster_post_forward :
  GoldenMaster.handlePostMessage sdk target (request_state reg tr) =
  (Normal tt,
   {| sessions := reg;
      res := match handlePostMessage_outcome sdk with
             | Resolves head | Rejects head _ => left_by_sdk [] head
             end;
      trace := tr ++ [transport_handlePostMessage (session_id r)]
               ++ match handlePostMessage_outcome sdk with
                  | Resolves _ => [console_log "📨 Message handled by SDK"]
                  | Rejects _ error => [console_error "❌ Message Error:" error]
                  end |}).
Proof.
  unfold GoldenMaster.handlePostMessage. rewrite Hq, (truthy_Some _ Hne).
  destruct (handlePostMessage_outcome sdk) as [[s|] | [s|] e]; js;
    rewrite Hreg;
    rewrite bool_decide_eq_true_2 by eauto;
    simpl; rewrite Hreg; simpl; rewrite <- ?app_assoc; reflexivity.
Qed.

End Forwarding.

(** X6.  A message for a registered session is handed to the transport of
    that session, once, and to nothing else: the registry is unchanged, the
    router writes no status or body of its own, and the response is as the
    SDK left it.  This holds in the three drafts; the golden-master draft
    adds one console line. *)
Theorem message_forwarded_once (sdk : Sdk) (target : URL) (sid : string)
  (r : SessionRecord) (reg : gmap string SessionRecord) (tr : list Effect)
  (head : option nat) :
  searchParams_get "sessionId" (searchParams target) = Some sid ->
  sid <> "" ->
  reg !! sid = Some r ->
  handlePostMessage_outcome sdk = Resolves head ->
  ServerTs.handlePostMessage sdk target (request_state reg tr) =
    (Normal tt,
     {| sessions := reg; res := left_by_sdk cors_post head;
        trace := tr ++ [transport_handlePostMessage (session_id r)] |})
  /\ Legacy.handlePostMessage sdk target (request_state reg tr) =
     (Normal tt,
      {| sessions := reg; res := left_by_sdk [] head;
         trace := tr ++ [transport_handlePostMessage (session_id r)] |})
  /\ GoldenMaster.handlePostMessage sdk target (request_state reg tr) =
     (Normal tt,
      {| sessions := reg; res := left_by_sdk [] head;
         trace := tr ++ [transport_handlePostMessage (session_id r);
                         console_log "📨 Message handled by SDK"] |}).
Proof.
  intros Hq Hne Hreg Ho. split; [| split].
  - rewrite (ServerTs_post_forward sdk target sid r reg tr Hq Hne Hreg), Ho.
    now rewrite app_nil_r.
  - rewrite (Legacy_post_forward sdk target sid r reg tr Hq Hne Hreg), Ho.
    now rewrite app_nil_r.
  - now rewrite (GoldenMaster_post_forward sdk target sid r reg tr
                   Hq Hne Hreg), Ho.
Qed.

Lemma message_forwarded_once_witness :
  ServerTs.handlePostMessage (sdk_ok "s9") (submit_to [("sessionId", "s1")])
    (request_state (<["s1" := opened "s1"]> ∅) []) =
  (Normal tt,
   {| sessions := <["s1" := opened "s1"]> ∅;
      res := left_by_sdk cors_post (Some 202);
      trace := [] ++ [transport_handlePostMessage
                        (session_id (opened "s1"))] |}).
Proof.
  assert (Hne : "s1" <> "") by discriminate.
  pose proof (message_forwarded_once (sdk_ok "s9")
                (submit_to [("sessionId", "s1")]) "s1" (opened "s1")
                (<["s1" := opened "s1"]> ∅) [] (Some 202)
                eq_refl Hne eq_refl eq_refl) as (H & _).
  exact H.
Defined.

(** X7.  A failure of the transport does not escape the router and does
    not cost the session: when [transport.handlePostMessage] rejects, the
    router completes, the registry is unchanged and the error is logged.
    server.ts then answers 500 "Failed to process message" and the legacy
    draft 500 "Message Error", unless the response head is already out;
    the golden-master draft answers nothing at all. *)
Theorem router_contains_transport_failure (sdk : Sdk) (target : URL)
  (sid : string) (r : SessionRecord) (reg : gmap string SessionRecord)
  (tr : list Effect) (head : option nat) (error : Exn) :
  searchParams_get "sessionId" (searchParams target) = Some sid ->
  sid <> "" ->
  reg !! sid = Some r ->
  handlePostMessage_outcome sdk = Rejects head error ->
  ServerTs.handlePostMessage sdk target (request_state reg tr) =
    (Normal tt,
     {| sessions := reg;
        res := match head with
               | None => replied cors_post 500 "Failed to process message"
               | Some _ => left_by_sdk cors_post head
               end;
        trace := tr ++ [transport_handlePostMessage (session_id r);
                        console_error "Failed to process message" error] |})
  /\ Legacy.handlePostMessage sdk target (request_state reg tr) =
     (Normal tt,
      {| sessions := reg;
         res := match head with
                | None => replied [] 500 "Message Error"
                | Some _ => left_by_sdk [] head
                end;
         trace := tr ++ [transport_handlePostMessage (session_id r);
                         console_error "Failed to process message" error] |})
  /\ GoldenMaster.handlePostMessage sdk target (request_state reg tr) =
     (Normal tt,
      {| sessions := reg; res := left_by_sdk [] head;
         trace := tr ++ [transport_handlePostMessage (session_id r);
                         console_error "❌ Message Error:" error] |}).
Proof.
  intros Hq Hne Hreg Ho. split; [| split].
  - rewrite (ServerTs_post_forward sdk target sid r reg tr Hq Hne Hreg), Ho.
    now destruct head.
  - rewrite (Legacy_post_forward sdk target sid r reg tr Hq Hne Hreg), Ho.
    now destruct head.
  - now rewrite (GoldenMaster_post_forward sdk target sid r reg tr
                   Hq Hne Hreg), Ho.
Qed.

Lemma router_contains_transport_failure_witness :
  GoldenMaster.handlePostMessage
    {| transport_sessionId := "s9";
       connect_outcome := Resolves (Some 200);
       handlePostMessage_outcome := Rejects None (Error "bad body") |}
    (submit_to [("sessionId", "s1")])
    (request_state (<["s1" := opened "s1"]> ∅) []) =
  (Normal tt,
   {| sessions := <["s1" := opened "s1"]> ∅;
      res := left_by_sdk [] None;
      trace := [] ++ [transport_handlePostMessage (session_id (opened "s1"));
                      console_error "❌ Message Error:" (Error "bad body")] |}).
Proof.
  assert (Hne : "s1" <> "") by discriminate.
  pose proof (router_contains_transport_failure
                {| transport_sessionId := "s9";
                   connect_outcome := Resolves (Some 200);
                   handlePostMessage_outcome :=
                     Rejects None (Error "bad body") |}
                (submit_to [("sessionId", "s1")]) "s1" (opened "s1")
                (<["s1" := opened "s1"]> ∅) [] None (Error "bad body")
                eq_refl Hne eq_refl eq_refl) as (_ & _ & H).
  exact H.
Defined.

(** ** What the later drafts put on every response *)

Lemma Legacy_open_headers (sdk : Sdk) (st : State) :
  headers (res (snd (Legacy.handleSseRequest sdk st))) = headers (res st).
Proof.
  unfold Legacy.handleSseRequest.
  destruct (connect_outcome sdk) as [[s|] | [s|] e]; js; try reflexivity.
  destruct (headersSent (res st)) eqn:Hs; settle Hs.
Qed.

Lemma Legacy_post_headers (sdk : Sdk) (target : URL) (st : State) :
  headers (res (snd (Legacy.handlePostMessage sdk target st)))
  = headers (res st).
Proof.
  unfold Legacy.handlePostMessage.
  set (sid := searchParams_get "sessionId" (searchParams target)).
  destruct (handlePostMessage_outcome sdk) as [[s|] | [s|] e]; js;
    destruct (truthy sid);
    destruct (sessions st !! default "" sid) eqn:E;
    destruct (headersSent (res st)) eqn:Hs;
    repeat (progress (simpl; rewrite ?Hs, ?E)); reflexivity.
Qed.

Lemma GoldenMaster_open_headers (sdk : Sdk) (st : State) :
  headers (res (snd (GoldenMasterHttp.handleSseRequest sdk st)))
  = headers (res st).
Proof.
  unfold GoldenMasterHttp.handleSseRequest.
  destruct (connect_outcome sdk) as [[s|] | [s|] e]; reflexivity.
Qed.

Lemma GoldenMaster_post_headers (sdk : Sdk) (target : URL) (st : State) :
  headers (res (snd (GoldenMaster.handlePostMessage sdk target st)))
  = headers (res st).
Proof.
  unfold GoldenMaster.handlePostMessage.
  set (sid := searchParams_get "sessionId" (searchParams target)).
  destruct (handlePostMessage_outcome sdk) as [[s|] | [s|] e]; js;
    destruct (sessions st !! default "" sid) eqn:E;
    destruct (truthy sid); destruct (headersSent (res st)) eqn:Hs;
    repeat (progress (simpl; rewrite ?Hs, ?E)); reflexivity.
Qed.

(** X8.  The legacy and golden-master listeners put the three CORS
    headers (wildcard origin, the three methods, [content-type]) on the
    response of every request, whichever branch answers it and whatever
    the SDK does; no handler takes one of them back. *)
Theorem cors_headers_on_every_response (sdk : Sdk) (req : IncomingMessage)
  (reg : gmap string SessionRecord) (tr : list Effect)
  (header : string * string) :
  In header cors_all ->
  In header
    (headers (res (snd (Legacy.httpServer sdk req (request_state reg tr)))))
  /\ In header
       (headers (res (snd (GoldenMasterHttp.httpServer sdk req
                             (request_state reg tr))))).
Proof.
  intros Hin.
  assert (HL : headers (res (snd (Legacy.httpServer sdk req
                                    (request_state reg tr)))) = cors_all).
  { rewrite Legacy_route.
    repeat (match goal with
            | |- context [if ?b then _ else _] => destruct b
            end; try reflexivity);
      [now rewrite Legacy_open_headers | now rewrite Legacy_post_headers]. }
  assert (HG : headers (res (snd (GoldenMasterHttp.httpServer sdk req
                                    (request_state reg tr)))) = cors_all).
  { rewrite GoldenMaster_route.
    repeat (match goal with
            | |- context [if ?b then _ else _] => destruct b
            end; try reflexivity);
      first [now rewrite GoldenMaster_open_headers
            | now rewrite GoldenMaster_post_headers]. }
  rewrite HL, HG. now split.
Qed.

Lemma cors_headers_on_every_response_witness :
  In ("Access-Control-Allow-Origin", "*")
    (headers (res (snd (Legacy.httpServer (sdk_fails_late "s1") open_request
                          (request_state ∅ []))))).
Proof.
  exact (proj1 (cors_headers_on_every_response (sdk_fails_late "s1")
                  open_request ∅ [] ("Access-Control-Allow-Origin", "*")
                  (or_introl eq_refl))).
Defined.

(** ** The golden-master listener *)

(** X9.  The golden-master listener refuses every POST on the stream-open
    path with 405 "Use GET", also one that carries the identifier of a
    registered session; and it answers the root path with
    200 "MCP Server Online" for GET only, any other method but OPTIONS
    getting 404 "Not Found" there.  None of these touches the registry or
    calls the SDK. *)
Theorem golden_master_probe_and_health (sdk : Sdk) (m p : string)
  (q : list (string * string)) (reg : gmap string SessionRecord)
  (tr : list Effect) :
  let answered (status : nat) (text : string) :=
    (Normal tt,
     {| sessions := reg; res := replied cors_all status text;
        trace := tr |}) in
  (replace_trailing_slash p = "/mcp" ->
   GoldenMasterHttp.httpServer sdk (with_path "POST" p q)
     (request_state reg tr) = answered 405 "Use GET")
  /\ (replace_trailing_slash p = "" \/ replace_trailing_slash p = "/" ->
      GoldenMasterHttp.httpServer sdk (with_path "GET" p q)
        (request_state reg tr) = answered 200 "MCP Server Online"
      /\ (m <> "OPTIONS" -> m <> "GET" ->
          GoldenMasterHttp.httpServer sdk (with_path m p q)
            (request_state reg tr) = answered 404 "Not Found")).
Proof.
  intros answered. subst answered. cbv beta. split.
  - intros Hp. rewrite GoldenMaster_route.
    cbn [with_path method url pathname searchParams]. now rewrite Hp.
  - intros Hp. split.
    + rewrite GoldenMaster_route.
      cbn [with_path method url pathname searchParams].
      now destruct Hp as [-> | ->].
    + intros Ho Hg. apply String.eqb_neq in Ho, Hg.
      rewrite GoldenMaster_route.
      cbn [with_path method url pathname searchParams]. rewrite Ho, Hg.
      destruct Hp as [-> | ->]; reflexivity.
Qed.

Lemma golden_master_probe_and_health_witness :
  GoldenMasterHttp.httpServer (sdk_ok "s9")
    (with_path "POST" "/mcp/" [("sessionId", "s1")])
    (request_state (<["s1" := opened "s1"]> ∅) []) =
  (Normal tt,
   {| sessions := <["s1" := opened "s1"]> ∅;
      res := replied cors_all 405 "Use GET"; trace := [] |}).
Proof.
  pose proof (golden_master_probe_and_health (sdk_ok "s9") "PUT" "/mcp/"
                [("sessionId", "s1")] (<["s1" := opened "s1"]> ∅) [])
    as (H & _).
  exact (H eq_refl).
Defined.

(** ** A handshake that fails, in the later drafts *)

(** X10.  When [server.connect] rejects, the legacy and the golden-master
    draft both complete and leave no entry under the identifier of the
    transport.  The legacy draft answers 500 "SSE Error" if the response
    head is not out yet; the golden-master draft never answers: it leaves
    the response as the SDK left it. *)
Theorem later_drafts_failed_handshake (sdk : Sdk)
  (reg : gmap string SessionRecord) (tr : list Effect)
  (head : option nat) (error : Exn) :
  connect_outcome sdk = Rejects head error ->
  let sid := transport_sessionId sdk in
  let a := Legacy.handleSseRequest sdk (request_state reg tr) in
  let b := GoldenMasterHttp.handleSseRequest sdk (request_state reg tr) in
  fst a = Normal tt /\ sessions (snd a) = delete sid reg
  /\ res (snd a) = match head with
                   | None => replied [] 500 "SSE Error"
                   | Some _ => left_by_sdk [] head
                   end
  /\ fst b = Normal tt /\ sessions (snd b) = delete sid reg
  /\ res (snd b) = left_by_sdk [] head.
Proof.
  intros Hc sid a b. subst a b sid.
  unfold Legacy.handleSseRequest, GoldenMasterHttp.handleSseRequest.
  rewrite Hc. destruct head; js; rewrite !delete_insert_eq;
    repeat split; reflexivity.
Qed.

Lemma later_drafts_failed_handshake_witness :
  res (snd (GoldenMasterHttp.handleSseRequest (sdk_fails_early "s3")
              (request_state ∅ [])))
  = left_by_sdk [] None.
Proof.
  pose proof (later_drafts_failed_handshake (sdk_fails_early "s3") ∅ []
                None (Error "already started") eq_refl)
    as (_ & _ & _ & _ & _ & H).
  exact H.
Defined.

(** ** Sessions along a run *)

Lemma step_keeps_records (w : World) (e : Event) :
  (forall sid r, registry w !! sid = Some r -> r = opened sid) ->
  forall sid r,
    registry (ServerTsRun.step w e) !! sid = Some r -> r = opened sid.
Proof.
  intros Hw sid r. destruct e as [sdk req | closed ce].
  - rewrite step_request_registry.
    destruct (ServerTsRun.opens_stream req); [| apply Hw].
    destruct (connect_outcome sdk).
    + destruct (decide (transport_sessionId sdk = sid)) as [<- | Hne].
      * rewrite lookup_insert_eq. congruence.
      * rewrite lookup_insert_ne by assumption. apply Hw.
    + rewrite lookup_delete_Some. intros [_ H]. now apply Hw.
  - rewrite step_closed_registry, lookup_delete_Some.
    intros [_ H]. now apply Hw.
Qed.

(** X11.  Whatever requests and closes have happened, with or without
    fresh identifiers, every entry of the registry of server.ts is the
    record that [handleSseRequest] made for the transport whose identifier
    is the key: the key and [transport.sessionId] of the entry agree. *)
Theorem registered_sessions_well_formed (evs : list Event) (sid : string)
  (r : SessionRecord) :
  registry (ServerTsRun.run initial evs) !! sid = Some r ->
  sessionId (transport r) = sid /\ r = opened sid.
Proof.
  assert (H : forall w,
             (forall s x, registry w !! s = Some x -> x = opened s) ->
             forall s x,
               registry (ServerTsRun.run w evs) !! s = Some x ->
               x = opened s).
  { induction evs as [| e evs' IH]; intros w Hw; [exact Hw |].
    simpl. apply IH. now apply step_keeps_records. }
  intros Hr. apply H in Hr.
  - subst r. now split.
  - intros s x. simpl. rewrite lookup_empty. discriminate.
Qed.

Lemma registered_sessions_well_formed_witness :
  registry (ServerTsRun.run initial sample_events) !! "s2"
  = Some (opened "s2")
  /\ sessionId (transport (opened "s2")) = "s2"
  /\ opened "s2" = opened "s2".
Proof.
  assert (H : registry (ServerTsRun.run initial sample_events) !! "s2"
              = Some (opened "s2")) by reflexivity.
  split; [exact H |].
  exact (registered_sessions_well_formed sample_events "s2" (opened "s2") H).
Defined.

Lemma stays_registered (sid : string) (evs : list Event) :
  forall w : World,
    registry w !! sid = Some (opened sid) ->
    left_alone sid evs ->
    registry (ServerTsRun.run w evs) !! sid = Some (opened sid).
Proof.
  induction evs as [| e evs IH]; intros w Hw Hev; [exact Hw |].
  inversion Hev as [| ? ? He Hrest]; subst. simpl. apply IH; [| exact Hrest].
  destruct e as [sdk req | closed ce].
  - rewrite step_request_registry.
    destruct (ServerTsRun.opens_stream req); [| exact Hw].
    specialize (He eq_refl).
    destruct (connect_outcome sdk).
    + now rewrite lookup_insert_ne.
    + now rewrite lookup_delete_ne.
  - rewrite step_closed_registry. now rewrite lookup_delete_ne.
Qed.

(** X12.  A stream that has been opened can be written to: once a GET on
    the stream-open path has had its [server.connect] resolve, then, for
    as long as that stream is not closed and no other transport is
    constructed under its identifier, the entry of the registry under the
    identifier is still the one that request stored, and a message
    submitted with the identifier is handed to its transport, whatever
    other requests and closes happen in between. *)
Theorem opened_stream_is_routable (w : World) (sdk : Sdk)
  (req : IncomingMessage) (head : option nat) (evs : list Event)
  (sdk' : Sdk) (target : URL) (head' : option nat) :
  ServerTsRun.opens_stream req = true ->
  connect_outcome sdk = Resolves head ->
  transport_sessionId sdk <> "" ->
  left_alone (transport_sessionId sdk) evs ->
  searchParams_get "sessionId" (searchParams target)
  = Some (transport_sessionId sdk) ->
  handlePostMessage_outcome sdk' = Resolves head' ->
  let w0 := ServerTsRun.step w (Request sdk req) in
  let w' := ServerTsRun.run w0 evs in
  registry w' !! transport_sessionId sdk
  = registry w0 !! transport_sessionId sdk
  /\ registry w0 !! transport_sessionId sdk
     = Some (opened (transport_sessionId sdk))
  /\ ServerTs.handlePostMessage sdk' target
       (request_state (registry w') (log w')) =
     (Normal tt,
      {| sessions := registry w'; res := left_by_sdk cors_post head';
         trace := log w'
                  ++ [transport_handlePostMessage (transport_sessionId sdk)] |}).
Proof.
  intros Ho Hc Hne Hev Hq Hp w0 w'.
  assert (H0 : registry w0 !! transport_sessionId sdk
               = Some (opened (transport_sessionId sdk))).
  { subst w0. rewrite step_request_registry, Ho, Hc. apply lookup_insert_eq. }
  assert (Hreg : registry w' !! transport_sessionId sdk
                 = Some (opened (transport_sessionId sdk)))
    by now apply stays_registered.
  split; [now rewrite Hreg, H0 |]. split; [exact H0 |].
  rewrite (ServerTs_post_forward sdk' target _ _ _ _ Hq Hne Hreg), Hp.
  now rewrite app_nil_r.
Qed.

Lemma opened_stream_is_routable_witness :
  let w' := ServerTsRun.run
              (ServerTsRun.step initial (Request (sdk_ok "s1") open_request))
              [Request (sdk_ok "s2") open_request; StreamClosed "s2" None] in
  ServerTs.handlePostMessage (sdk_ok "s9")
    (submit_to [("sessionId", "s1")])
    (request_state (registry w') (log w')) =
  (Normal tt,
   {| sessions := registry w'; res := left_by_sdk cors_post (Some 202);
      trace := log w' ++ [transport_handlePostMessage "s1"] |}).
Proof.
  assert (Hne : transport_sessionId (sdk_ok "s1") <> "") by discriminate.
  assert (Hev : left_alone "s1"
                  [Request (sdk_ok "s2") open_request;
                   StreamClosed "s2" None]).
  { repeat constructor; [intros _ H | ]; discriminate. }
  exact (proj2 (proj2
           (opened_stream_is_routable initial (sdk_ok "s1") open_request
              (Some 200) _ (sdk_ok "s9") (submit_to [("sessionId", "s1")])
              (Some 202) eq_refl eq_refl Hne Hev eq_refl eq_refl))).
Defined.

(** ** The tools of server.ts *)

Lemma show_accepts (x : list (string * Json)) (msg : string)
  (accent info : option string) :
  get_property "message" x = Some (JStr msg) ->
  get_property "accentColor" x = JStr <$> accent ->
  get_property "details" x = JStr <$> info ->
  ServerTs.showParser x =
  Normal {| ServerTs.message := msg; ServerTs.accentColor := accent;
            ServerTs.details := info |}.
Proof.
  intros Hm Ha Hd. unfold ServerTs.showParser. rewrite Hm, Ha, Hd.
  destruct accent, info; reflexivity.
Qed.

(** X13.  [kitchen-sink-show] on arguments whose [message] is a string
    and whose [accentColor] and [details] are strings or absent returns a
    result that echoes the message unchanged, carries its upper-cased copy
    and the time of processing, passes a given accent colour and details
    through and fills an absent one with "#2d6cdf" and with the
    "Processed at ..." sentence, and is tagged with the tool name.
    [kitchen-sink-refresh] needs only the string [message]: it echoes it
    with the fixed accent colour and details, whatever else is passed. *)
Theorem tools_echo_and_fill_defaults (rt : Runtime)
  (x : list (string * Json)) (msg : string) (accent info : option string) :
  get_property "message" x = Some (JStr msg) ->
  (get_property "accentColor" x = JStr <$> accent ->
   get_property "details" x = JStr <$> info ->
   ServerTs.CallTool rt (call "kitchen-sink-show" x) =
   Normal
     {| content :=
          [{| type := "text";
              text := "Widget ready with message: " ++ msg ++ " (processed "
                      ++ toISOString_now rt ++ ")" |}];
        structuredContent :=
          Some [("message", JStr msg);
                ("accentColor", JStr (default "#2d6cdf" accent));
                ("details",
                 JStr (default ("Processed at " ++ toISOString_now rt
                                ++ ". Echo (uppercased): "
                                ++ toUpperCase rt msg ++ ".") info));
                ("fromTool", JStr "kitchen-sink-show");
                ("processedAt", JStr (toISOString_now rt));
                ("echoed", JStr (toUpperCase rt msg))];
        _meta := Some (ServerTs.toolInvocationMeta "kitchen-sink-show") |})
  /\ ServerTs.CallTool rt (call "kitchen-sink-refresh" x) =
     Normal
       {| content := [{| type := "text"; text := msg |}];
          structuredContent :=
            Some [("message", JStr msg);
                  ("accentColor", JStr "#2d6cdf");
                  ("details",
                   JStr "Response returned from window.openai.callTool.");
                  ("fromTool", JStr "kitchen-sink-refresh")];
          _meta :=
            Some (ServerTs.toolInvocationMeta "kitchen-sink-refresh") |}.
Proof.
  intros Hm. split.
  - intros Ha Hd. unfold call. rewrite CallTool_show. change (default [] (Some x)) with x.
    now rewrite (show_accepts x msg accent info Hm Ha Hd).
  - unfold call. rewrite CallTool_refresh. change (default [] (Some x)) with x.
    unfold ServerTs.refreshParser. now rewrite Hm.
Qed.

Lemma tools_echo_and_fill_defaults_witness :
  ServerTs.CallTool sample_runtime
    (call "kitchen-sink-refresh"
       [("message", JStr "hi"); ("accentColor", JStr "#ff0000")]) =
  Normal
    {| content := [{| type := "text"; text := "hi" |}];
       structuredContent :=
         Some [("message", JStr "hi");
               ("accentColor", JStr "#2d6cdf");
               ("details",
                JStr "Response returned from window.openai.callTool.");
               ("fromTool", JStr "kitchen-sink-refresh")];
       _meta :=
         Some (ServerTs.toolInvocationMeta "kitchen-sink-refresh") |}.
Proof.
  exact (proj2 (tools_echo_and_fill_defaults sample_runtime
                  [("message", JStr "hi"); ("accentColor", JStr "#ff0000")]
                  "hi" None None eq_refl)).
Defined.

(** X14.  Every tool that server.ts lists accepts the arguments its
    declared input schema describes: for a listed tool and arguments that
    satisfy its schema the handler returns a result, and an accepting
    engine writes that one success result on the stream. *)
Theorem listed_tools_accept_declared_shape (rt : Runtime) (t : Tool)
  (x : list (string * Json)) (engine : Engine) :
  In t ServerTs.tools ->
  satisfies (inputSchema t) x = true ->
  exists result,
    ServerTs.CallTool rt (call (tool_name t) x) = Normal result
    /\ (accepting engine = true ->
        written (Dispatch (ServerTs.CallTool rt) (call (tool_name t) x)
                   engine)
        = (written engine ++ [SuccessResult result])%list).
Proof.
  intros Ht Hs.
  assert (Hopen : satisfies (open_shape (inputSchema t)) x = true).
  { unfold satisfies in *. cbn [open_shape properties required
      additionalProperties]. rewrite orb_true_l, andb_true_r.
    apply andb_true_iff in Hs as [Hs _]. exact Hs. }
  assert (Hr : exists result,
             ServerTs.CallTool rt (call (tool_name t) x) = Normal result).
  { destruct Ht as [<- | [<- | []]]; cbn [tool_name inputSchema] in *.
    - apply showParser_shape in Hopen as [parsed Hp].
      unfold call. rewrite CallTool_show. change (default [] (Some x)) with x. rewrite Hp. eauto.
    - apply refreshParser_shape in Hopen as [parsed Hp].
      unfold call. rewrite CallTool_refresh. change (default [] (Some x)) with x. rewrite Hp.
      eauto. }
  destruct Hr as [result Hr]. exists result. split; [exact Hr |].
  intros Hacc. rewrite Dispatch_accepting by assumption. now rewrite Hr.
Qed.

Lemma listed_tools_accept_declared_shape_witness :
  exists result,
    ServerTs.CallTool sample_runtime
      (call "kitchen-sink-show" [("message", JStr "hi")]) = Normal result
    /\ (accepting {| accepting := true; written := [] |} = true ->
        written (Dispatch (ServerTs.CallTool sample_runtime)
                   (call "kitchen-sink-show" [("message", JStr "hi")])
                   {| accepting := true; written := [] |})
        = ([] ++ [SuccessResult result])%list).
Proof.
  exact (listed_tools_accept_declared_shape sample_runtime
           (List.hd {| tool_name := ""; tool_title := "";
                       tool_description := "";
                       inputSchema := ServerTs.refreshInputSchema;
                       tool_meta := None; annotations := [] |}
                    ServerTs.tools)
           [("message", JStr "hi")] {| accepting := true; written := [] |}
           (or_introl eq_refl) eq_refl).
Defined.

(** X15.  The tool handler of server.ts serves exactly the tools the
    server lists: it answers "Unknown tool: <name>" if and only if the name
    is not among the listed ones.  The golden-master handler likewise
    answers "Tool not found" if and only if the name is not its one listed
    tool. *)
Theorem handlers_serve_exactly_listed_tools (rt : Runtime)
  (request : CallToolRequest) :
  (ServerTs.CallTool rt request
   = Thrown (Error ("Unknown tool: " ++ name request))
   <-> ~ In (name request) (map tool_name ServerTs.tools))
  /\ (GoldenMaster.CallTool rt request = Thrown (Error "Tool not found")
      <-> ~ In (name request) (map tool_name GoldenMaster.tools)).
Proof.
  split; split.
  - intros Hc Hin. apply registered_names in Hin.
    destruct request as [n a]. cbn [name] in *.
    destruct Hin as [-> | ->].
    + rewrite CallTool_show in Hc.
      destruct (ServerTs.showParser (default [] a)) eqn:Hp; [discriminate |].
      apply showParser_throws in Hp as (issues & -> & _). discriminate.
    + rewrite CallTool_refresh in Hc.
      destruct (ServerTs.refreshParser (default [] a)) eqn:Hp;
        [discriminate |].
      apply refreshParser_throws in Hp as (issues & -> & _). discriminate.
  - apply CallTool_unknown.
  - intros Hc [Hn | []]. unfold GoldenMaster.CallTool in Hc.
    cbn [tool_name] in Hn. rewrite <- Hn in Hc. cbn in Hc.
    destruct (arguments request) as [x |]; [| discriminate].
    unfold template in Hc.
    destruct (get_property "message" x) as [[] |]; try discriminate;
      destruct (ToString rt _); discriminate.
  - intros Hn. unfold GoldenMaster.CallTool.
    destruct (String.eqb_spec (name request) "kitchen-sink-show") as [E | _];
      [| reflexivity].
    exfalso. apply Hn. left. now symmetry.
Qed.

Lemma undeclared_is_transparent (k : string) (v : Json)
  (x : list (string * Json)) (key : string) :
  declared ServerTs.toolInputSchema k = false ->
  declared ServerTs.toolInputSchema key = true ->
  get_property key ((k, v) :: x) = get_property key x.
Proof.
  intros Hk Hkey. cbn [get_property].
  destruct (String.eqb_spec k key) as [-> | _]; [| reflexivity].
  congruence.
Qed.

(** X16.  The tool handler of server.ts does not refuse undeclared
    properties, it ignores them: adding a property that the input schema
    does not declare changes nothing in the outcome of either tool,
    although the arguments then no longer satisfy the declared schemas,
    which forbid additional properties. *)
Theorem undeclared_properties_ignored (rt : Runtime) (tool : string)
  (k : string) (v : Json) (x : list (string * Json)) :
  declared ServerTs.toolInputSchema k = false ->
  ServerTs.CallTool rt (call tool ((k, v) :: x))
  = ServerTs.CallTool rt (call tool x)
  /\ satisfies ServerTs.toolInputSchema ((k, v) :: x) = false
  /\ satisfies ServerTs.refreshInputSchema ((k, v) :: x) = false.
Proof.
  intros Hk.
  assert (Hm : get_property "message" ((k, v) :: x)
               = get_property "message" x)
    by now apply undeclared_is_transparent.
  assert (Ha : get_property "accentColor" ((k, v) :: x)
               = get_property "accentColor" x)
    by now apply undeclared_is_transparent.
  assert (Hd : get_property "details" ((k, v) :: x)
               = get_property "details" x)
    by now apply undeclared_is_transparent.
  split; [| split].
  - unfold ServerTs.CallTool, call. cbn [name arguments].
    change (default [] (Some ((k, v) :: x))) with ((k, v) :: x).
    change (default [] (Some x)) with x.
    unfold ServerTs.showParser, ServerTs.refreshParser.
    now rewrite Hm, Ha, Hd.
  - unfold satisfies.
    cbn [additionalProperties ServerTs.toolInputSchema orb forallb fst].
    rewrite Hk. now rewrite andb_false_r.
  - unfold satisfies.
    cbn [additionalProperties ServerTs.refreshInputSchema orb forallb fst].
    assert (Hr : declared ServerTs.refreshInputSchema k = false).
    { unfold declared in *.
      cbn [properties ServerTs.toolInputSchema ServerTs.refreshInputSchema
           existsb fst] in *.
      apply orb_false_iff in Hk as [Hk _]. now rewrite Hk. }
    rewrite Hr. now rewrite andb_false_r.
Qed.

Lemma undeclared_properties_ignored_witness :
  ServerTs.CallTool sample_runtime
    (call "kitchen-sink-show" [("color", JStr "red"); ("message", JStr "hi")])
  = ServerTs.CallTool sample_runtime
      (call "kitchen-sink-show" [("message", JStr "hi")]).
Proof.
  exact (proj1 (undeclared_properties_ignored sample_runtime
                  "kitchen-sink-show" "color" (JStr "red")
                  [("message", JStr "hi")] eq_refl)).
Defined.

(** X17.  The golden-master tool handler validates nothing and has these
    outcomes only.  A result, for [kitchen-sink-show] called with an
    arguments object whose [message] is absent, a string or convertible
    to one: the text shows "undefined", the string, or its conversion.
    A [TypeError], when [kitchen-sink-show] is called without arguments
    or with a [message] that has no primitive value.  A [RangeError], when
    the conversion of [message] exhausts the stack.  And "Tool not
    found", exactly for the other names. *)
Theorem golden_master_tool_outcomes (rt : Runtime)
  (request : CallToolRequest) :
  let message :=
    match arguments request with
    | Some x => get_property "message" x
    | None => None
    end in
  let shown (s : string) (result : CallToolResult) :=
    result =
    {| content :=
         [{| type := "text";
             text := "Widget displayed: " ++ dquote ++ s ++ dquote |}];
       structuredContent := None;
       _meta := None |} in
  match GoldenMaster.CallTool rt request with
  | Normal result =>
      name request = "kitchen-sink-show"
      /\ arguments request <> None
      /\ match message with
         | None => shown "undefined" result
         | Some (JStr s) => shown s result
         | Some j => exists s, ToString rt j = Converted s /\ shown s result
         end
  | Thrown (TypeError _) =>
      name request = "kitchen-sink-show"
      /\ (arguments request = None
          \/ exists j, message = Some j /\ ToString rt j = NoPrimitiveValue)
  | Thrown (RangeError _) =>
      name request = "kitchen-sink-show"
      /\ exists j, message = Some j /\ ToString rt j = StackExhausted
  | Thrown (Error msg) =>
      msg = "Tool not found" /\ name request <> "kitchen-sink-show"
  | Thrown (ZodError _) => False
  end.
Proof.
  intros message shown. subst message shown. cbv beta.
  unfold GoldenMaster.CallTool.
  destruct (String.eqb_spec (name request) "kitchen-sink-show") as [E | E];
    [| now split].
  destruct (arguments request) as [x |]; [| split; [exact E | now left]].
  unfold template.
  destruct (get_property "message" x) as [j |];
    [| split; [exact E | split; [discriminate | reflexivity]]].
  destruct j; try (split; [exact E | split; [discriminate | reflexivity]]);
    match goal with
    | |- context [ToString rt ?v] => destruct (ToString rt v) eqn:Ec
    end;
    first
      [ split; [exact E | split; [discriminate | eexists; split; eauto]]
      | split; [exact E | right; eexists; split; eauto]
      | split; [exact E | eexists; split; eauto] ].
Qed.

(** ** Loading the widget markup *)

Lemma truthy_nonempty (o : option string) :
  truthy o = true -> default "" o <> "".
Proof.
  destruct o as [s |]; simpl; [| discriminate].
  destruct (String.eqb_spec s ""); [discriminate | auto].
Qed.


(** X19.  [readWidgetHtml] of the legacy draft always hands back markup
    that is not empty: what it read, or the placeholder; it falls back to
    the placeholder, without a warning, when the assets directory does not
    exist. *)
Theorem legacy_widget_html_never_empty (h : Host) :
  LegacyAssets.html (LegacyAssets.readWidgetHtml h) <> ""
  /\ (existsSync h (ASSETS_DIR h) = false ->
      LegacyAssets.readWidgetHtml h =
      {| LegacyAssets.html := LegacyAssets.placeholder; LegacyAssets.warned := None |}).
Proof.
  unfold LegacyAssets.readWidgetHtml. split.
  - cbn [LegacyAssets.html].
    destruct (LegacyAssets.try_read h) as [o | e].
    + destruct (truthy o) eqn:Ht; [now apply truthy_nonempty | discriminate].
    + discriminate.
  - intros Hd. unfold LegacyAssets.try_read. now rewrite Hd.
Qed.

(** X20.  When the assets directory holds [kitchen-sink-lite.html], both
    drafts use that file and never look at the directory listing.  Markup
    that is not empty is returned by both; on empty markup server.ts
    throws and the legacy draft gives the placeholder; a read error
    propagates out of server.ts, while the legacy draft gives the
    placeholder and reports the error as a warning. *)
Theorem direct_widget_file_first (h : Host) :
  existsSync h (ASSETS_DIR h) = true ->
  existsSync h (path_join h (ASSETS_DIR h) "kitchen-sink-lite.html") = true ->
  match readFileSync h (path_join h (ASSETS_DIR h) "kitchen-sink-lite.html")
  with
  | Normal s =>
      if String.eqb s "" then
        (exists msg, ServerTsAssets.readWidgetHtml h = Thrown (Error msg))
        /\ LegacyAssets.readWidgetHtml h =
           {| LegacyAssets.html := LegacyAssets.placeholder; LegacyAssets.warned := None |}
      else
        ServerTsAssets.readWidgetHtml h = Normal s
        /\ LegacyAssets.readWidgetHtml h = {| LegacyAssets.html := s; LegacyAssets.warned := None |}
  | Thrown e =>
      ServerTsAssets.readWidgetHtml h = Thrown e
      /\ LegacyAssets.readWidgetHtml h =
         {| LegacyAssets.html := LegacyAssets.placeholder; LegacyAssets.warned := Some e |}
  end.
Proof.
  intros Hd Hf.
  unfold ServerTsAssets.readWidgetHtml, LegacyAssets.readWidgetHtml,
    LegacyAssets.try_read.
  rewrite Hd, Hf. cbn [negb].
  destruct (readFileSync h _) as [s | e]; cbn [and_then].
  - unfold truthy. destruct (String.eqb s ""); cbn [negb default];
      split; eauto.
  - now split.
Qed.

Lemma direct_widget_file_first_witness :
  ServerTsAssets.readWidgetHtml
    (sample_host [("kitchen-sink-lite.html", "<p>hi</p>")])
  = Normal "<p>hi</p>"
  /\ LegacyAssets.readWidgetHtml
       (sample_host [("kitchen-sink-lite.html", "<p>hi</p>")])
     = {| LegacyAssets.html := "<p>hi</p>"; LegacyAssets.warned := None |}.
Proof.
  exact (direct_widget_file_first
           (sample_host [("kitchen-sink-lite.html", "<p>hi</p>")])
           eq_refl eq_refl).
Defined.

Lemma last_item_In (l : list string) (f : string) :
  last_item l = Some f -> In f l.
Proof.
  unfold last_item. induction l as [| a l IH]; [discriminate |].
  destruct l as [| b l].
  - cbn. intros [= ->]. now left.
  - intros H. right. apply IH. exact H.
Qed.

(** X21.  Without [kitchen-sink-lite.html] in the assets directory,
    server.ts serves nothing but a hashed build of the widget: provided
    the sort does not invent names, markup it returns is the content of a
    file of the directory listing whose name starts with
    "kitchen-sink-lite-" and ends with ".html". *)
Theorem fallback_reads_only_hashed_builds (h : Host)
  (files : list string) (s : string) :
  (forall l x, In x (sort h l) -> In x l) ->
  existsSync h (ASSETS_DIR h) = true ->
  existsSync h (path_join h (ASSETS_DIR h) "kitchen-sink-lite.html") = false ->
  readdirSync h (ASSETS_DIR h) = Normal files ->
  ServerTsAssets.readWidgetHtml h = Normal s ->
  exists f,
    In f files
    /\ startsWith f "kitchen-sink-lite-" = true
    /\ endsWith f ".html" = true
    /\ readFileSync h (path_join h (ASSETS_DIR h) f) = Normal s.
Proof.
  intros Hsort Hd Hf Hl. unfold ServerTsAssets.readWidgetHtml.
  rewrite Hd, Hf, Hl. cbn [negb and_then].
  set (candidates := sort h (List.filter _ files)).
  destruct (last_item candidates) as [f |] eqn:Hlast;
    [| cbn; discriminate].
  destruct (truthy (Some f)); [| cbn; discriminate].
  change (default "" (Some f)) with f.
  destruct (readFileSync h (path_join h (ASSETS_DIR h) f)) as [t | e] eqn:Hr;
    cbn [and_then]; [| discriminate].
  destruct (truthy (Some t)); cbn [negb]; [| discriminate].
  intros [= <-]. exists f.
  apply last_item_In, Hsort, filter_In in Hlast as [Hin Hp].
  apply andb_true_iff in Hp as [Hp1 Hp2]. auto.
Qed.

Lemma fallback_reads_only_hashed_builds_witness :
  exists f,
    In f ["notes.txt"; "kitchen-sink-lite-ab12.html"]
    /\ startsWith f "kitchen-sink-lite-" = true
    /\ endsWith f ".html" = true
    /\ readFileSync
         (sample_host [("notes.txt", "x");
                       ("kitchen-sink-lite-ab12.html", "<p>hi</p>")])
         (path_join
            (sample_host [("notes.txt", "x");
                          ("kitchen-sink-lite-ab12.html", "<p>hi</p>")])
            "/app/assets" f)
       = Normal "<p>hi</p>".
Proof.
  apply (fallback_reads_only_hashed_builds
           (sample_host [("notes.txt", "x");
                         ("kitchen-sink-lite-ab12.html", "<p>hi</p>")])
           ["notes.txt"; "kitchen-sink-lite-ab12.html"] "<p>hi</p>");
    try reflexivity.
  intros l x H. exact H.
Defined.
